(** * Disaster-recovery orchestrator: node model, failover machine, metrics

    A shallow embedding of [src/dr_orchestrator.py].

    - A [DatabaseNode] object is a record; the registry [nodes] of the
      orchestrator is the list of the node objects and a reference to a node
      ([primary_node], [new_primary], the entries of [standbys]) is its
      position in the registry.  Every node object is registered once.
    - The storage driver (psycopg2) is outside the program: each call of a
      node method receives the outcome of its driver interaction as an
      argument, [Ok v] or [Raised]; every method catches [Exception], so
      [Raised] stands for any exception raised inside its [try] block.
    - Lags are seconds, modelled as rationals.
    - [trigger_failover] runs without interference from other coroutines
      during its sleeps; the model records the orchestrator state after each
      mutation and the calls made on the nodes. *)

From Stdlib Require Import QArith ZArith Lia Lqa String.
From stdpp Require Import base list.

Local Open Scope Q_scope.

(** ** Driver outcomes *)

Inductive result (A : Type) : Type :=
| Ok (a : A)
| Raised.
Arguments Ok {A} a.
Arguments Raised {A}.

(** A psycopg2 connection object: [closed] is zero or not. *)
Inductive Connection : Type :=
| ConnOpen
| ConnClosed.

(** ** class DatabaseNode *)

Record DatabaseNode : Type := mkDatabaseNode {
  name : string;
  host : string;
  port : Z;
  user : string;
  password : string;
  database : string;
  is_primary : bool;
  is_healthy : bool;
  connection : option Connection;
  replication_lag : Q
}.

(** [DatabaseNode.__init__] *)
Definition new_node (nm h : string) (p : Z) (u pw db : string) : DatabaseNode :=
  {| name := nm; host := h; port := p; user := u; password := pw;
     database := db; is_primary := false; is_healthy := true;
     connection := None; replication_lag := 0 |}.

Definition set_is_primary (b : bool) (n : DatabaseNode) : DatabaseNode :=
  {| name := name n; host := host n; port := port n; user := user n;
     password := password n; database := database n;
     is_primary := b; is_healthy := is_healthy n;
     connection := connection n; replication_lag := replication_lag n |}.

Definition set_is_healthy (b : bool) (n : DatabaseNode) : DatabaseNode :=
  {| name := name n; host := host n; port := port n; user := user n;
     password := password n; database := database n;
     is_primary := is_primary n; is_healthy := b;
     connection := connection n; replication_lag := replication_lag n |}.

Definition set_connection (c : option Connection) (n : DatabaseNode) : DatabaseNode :=
  {| name := name n; host := host n; port := port n; user := user n;
     password := password n; database := database n;
     is_primary := is_primary n; is_healthy := is_healthy n;
     connection := c; replication_lag := replication_lag n |}.

Definition set_replication_lag (q : Q) (n : DatabaseNode) : DatabaseNode :=
  {| name := name n; host := host n; port := port n; user := user n;
     password := password n; database := database n;
     is_primary := is_primary n; is_healthy := is_healthy n;
     connection := connection n; replication_lag := q |}.

#[global] Instance DatabaseNode_inhabited : Inhabited DatabaseNode :=
  populate (new_node EmptyString EmptyString 0%Z EmptyString EmptyString EmptyString).

(** [self.connection.cursor()] on [None] raises [AttributeError] before the
    driver is reached; otherwise the driver decides. *)
Definition through_connection {A : Type} (n : DatabaseNode) (out : result A) : result A :=
  match connection n with
  | None => Raised
  | Some _ => out
  end.

(** [connect]: a fresh open connection, or the node is marked unhealthy. *)
Definition connect (n : DatabaseNode) (conn_out : result unit) : bool * DatabaseNode :=
  match conn_out with
  | Ok _ => (true, set_connection (Some ConnOpen) n)
  | Raised => (false, set_is_healthy false n)
  end.

(** [not self.connection or self.connection.closed] *)
Definition not_connected (n : DatabaseNode) : bool :=
  match connection n with
  | Some ConnOpen => false
  | Some ConnClosed => true
  | None => true
  end.

(** [health_check]: [conn_out] is the outcome of [psycopg2.connect] and
    [probe_out] that of the [SELECT 1] round trip. *)
Definition health_check (n : DatabaseNode) (conn_out probe_out : result unit)
  : bool * DatabaseNode :=
  if not_connected n then connect n conn_out
  else
    match probe_out with
    | Ok _ => (true, set_is_healthy true n)
    | Raised => (false, set_is_healthy false n)
    end.

(** [lag if lag else 0.0]: [None] and a zero are falsy. *)
Definition lag_or_zero (lag : option Q) : Q :=
  match lag with
  | Some q => if Qeq_bool q 0 then 0 else q
  | None => 0
  end.

(** [get_replication_lag]: [out] is the outcome of the replay-delay query,
    [Ok None] for an SQL NULL. *)
Definition get_replication_lag (n : DatabaseNode) (out : result (option Q))
  : Q * DatabaseNode :=
  if is_primary n then (0, n)
  else
    match through_connection n out with
    | Ok lag =>
        let n' := set_replication_lag (lag_or_zero lag) n in
        (replication_lag n', n')
    | Raised => (0, n)
    end.

(** [promote_to_primary] *)
Definition promote_to_primary (n : DatabaseNode) (out : result unit)
  : bool * DatabaseNode :=
  match through_connection n out with
  | Ok _ => (true, set_is_primary true n)
  | Raised => (false, n)
  end.

(** The row of [pg_stat_database] read by [get_stats]. *)
Record StatsRow : Type := mkStatsRow {
  numbackends : Z;
  xact_commit : Z;
  xact_rollback : Z;
  blks_read : Z;
  blks_hit : Z
}.

Record Stats : Type := mkStats {
  active_connections : Z;
  transactions_committed : Z;
  transactions_rolled_back : Z;
  blocks_read : Z;
  blocks_hit : Z;
  cache_hit_ratio : Q
}.

(** [get_stats]: [Ok None] is a query without a row ([result[0]] then raises);
    the empty dict is [None]. *)
Definition get_stats (n : DatabaseNode) (out : result (option StatsRow)) : option Stats :=
  match through_connection n out with
  | Ok (Some r) =>
      Some {| active_connections := numbackends r;
              transactions_committed := xact_commit r;
              transactions_rolled_back := xact_rollback r;
              blocks_read := blks_read r;
              blocks_hit := blks_hit r;
              cache_hit_ratio :=
                if (0 <? blks_read r + blks_hit r)%Z
                then inject_Z (blks_hit r) / inject_Z (blks_read r + blks_hit r) * 100
                else 0 |}
  | Ok None => None
  | Raised => None
  end.

(** ** class DisasterRecoveryOrchestrator *)

(** One entry of [self.metrics]: the five fixed keys and the keys of
    [**stats], absent when [get_stats] returned the empty dict. *)
Record Metric : Type := mkMetric {
  m_timestamp : string;
  m_node : string;
  m_is_primary : bool;
  m_is_healthy : bool;
  m_replication_lag : Q;
  m_stats : option Stats
}.

Record Orchestrator : Type := mkOrchestrator {
  nodes : list DatabaseNode;
  primary_node : option nat;
  monitoring : bool;
  failover_in_progress : bool;
  metrics : list Metric
}.

(** [DisasterRecoveryOrchestrator.__init__] *)
Definition new_orchestrator : Orchestrator :=
  {| nodes := []; primary_node := None; monitoring := true;
     failover_in_progress := false; metrics := [] |}.

Definition set_nodes (ns : list DatabaseNode) (o : Orchestrator) : Orchestrator :=
  {| nodes := ns; primary_node := primary_node o; monitoring := monitoring o;
     failover_in_progress := failover_in_progress o; metrics := metrics o |}.

Definition set_primary_node (p : option nat) (o : Orchestrator) : Orchestrator :=
  {| nodes := nodes o; primary_node := p; monitoring := monitoring o;
     failover_in_progress := failover_in_progress o; metrics := metrics o |}.

Definition set_failover_in_progress (b : bool) (o : Orchestrator) : Orchestrator :=
  {| nodes := nodes o; primary_node := primary_node o; monitoring := monitoring o;
     failover_in_progress := b; metrics := metrics o |}.

Definition set_metrics (ms : list Metric) (o : Orchestrator) : Orchestrator :=
  {| nodes := nodes o; primary_node := primary_node o; monitoring := monitoring o;
     failover_in_progress := failover_in_progress o; metrics := ms |}.

(** A mutation of the node object behind reference [r]. *)
Definition update_node (r : nat) (f : DatabaseNode -> DatabaseNode) (o : Orchestrator)
  : Orchestrator :=
  set_nodes (alter f r (nodes o)) o.

(** A field read through reference [r]. *)
Definition node_at (o : Orchestrator) (r : nat) : DatabaseNode := nodes o !!! r.

(** [add_node] *)
Definition add_node (o : Orchestrator) (n : DatabaseNode) : Orchestrator :=
  let o1 := set_nodes (nodes o ++ [n]) o in
  if is_primary n then set_primary_node (Some (length (nodes o))) o1 else o1.

(** [initialize]: [conn_out r] is the outcome of connecting node [r]. *)
Definition initialize (o : Orchestrator) (conn_out : nat -> result unit)
  : bool * Orchestrator :=
  let rs := imap (fun r n => connect n (conn_out r)) (nodes o) in
  (forallb fst rs, set_nodes (map snd rs) o).

(** *** Metrics history *)

Definition max_metrics : nat := 100.

(** [self.metrics.append(metric)] followed by the trim to
    [self.metrics[-100:]]. *)
Definition append_metric (ms : list Metric) (m : Metric) : list Metric :=
  let ms' := ms ++ [m] in
  if (max_metrics <? length ms')%nat then drop (length ms' - max_metrics) ms' else ms'.

Definition snapshot (ts : string) (n : DatabaseNode) (stats : option Stats) : Metric :=
  {| m_timestamp := ts; m_node := name n; m_is_primary := is_primary n;
     m_is_healthy := is_healthy n; m_replication_lag := replication_lag n;
     m_stats := stats |}.

(** The body of the [for node in self.nodes] loop of [log_metrics]. *)
Definition log_node (ts : string) (n : DatabaseNode) (out : result (option StatsRow))
    (ms : list Metric) : list Metric :=
  if is_healthy n then append_metric ms (snapshot ts n (get_stats n out)) else ms.

Fixpoint log_nodes (ts : string) (stats_out : nat -> result (option StatsRow))
    (r : nat) (ns : list DatabaseNode) (ms : list Metric) : list Metric :=
  match ns with
  | [] => ms
  | n :: ns' => log_nodes ts stats_out (S r) ns' (log_node ts n (stats_out r) ms)
  end.

(** [log_metrics]: [ts] is [datetime.now().isoformat()], [stats_out r] the
    outcome of the statistics query of node [r]. *)
Definition log_metrics (ts : string) (stats_out : nat -> result (option StatsRow))
    (o : Orchestrator) : Orchestrator :=
  set_metrics (log_nodes ts stats_out 0 (nodes o) (metrics o)) o.

(** *** Status report *)

Record NodeStatus : Type := mkNodeStatus {
  ns_name : string;
  ns_is_primary : bool;
  ns_is_healthy : bool;
  ns_replication_lag : Q
}.

Record ClusterStatus : Type := mkClusterStatus {
  cs_timestamp : string;
  cs_primary : option string;
  cs_total_nodes : nat;
  cs_healthy_nodes : nat;
  cs_nodes : list NodeStatus
}.

Definition node_status (n : DatabaseNode) : NodeStatus :=
  {| ns_name := name n; ns_is_primary := is_primary n;
     ns_is_healthy := is_healthy n; ns_replication_lag := replication_lag n |}.

(** [get_cluster_status] *)
Definition get_cluster_status (ts : string) (o : Orchestrator) : ClusterStatus :=
  {| cs_timestamp := ts;
     cs_primary := (fun p => name (node_at o p)) <$> primary_node o;
     cs_total_nodes := length (nodes o);
     cs_healthy_nodes := length (List.filter is_healthy (nodes o));
     cs_nodes := map node_status (nodes o) |}.

(** *** Candidate selection *)

Definition Qlt_bool (x y : Q) : bool := negb (Qle_bool y x).

(** [list.sort(key=...)] is stable and compares keys with [<] only: an
    element is placed after the elements whose key is strictly smaller. *)
Fixpoint insert_by {A : Type} (key : A -> Q) (x : A) (s : list A) : list A :=
  match s with
  | [] => [x]
  | y :: s' => if Qlt_bool (key y) (key x) then y :: insert_by key x s' else x :: s
  end.

Definition sort_by {A : Type} (key : A -> Q) (l : list A) : list A :=
  foldr (insert_by key) [] l.

(** References of the nodes satisfying [p], in registry order; [r] is the
    reference of the head of [ns]. *)
Fixpoint refs_where (p : DatabaseNode -> bool) (r : nat) (ns : list DatabaseNode)
  : list nat :=
  match ns with
  | [] => []
  | n :: ns' => if p n then r :: refs_where p (S r) ns' else refs_where p (S r) ns'
  end.

(** [not n.is_primary and n.is_healthy] *)
Definition eligible (n : DatabaseNode) : bool := negb (is_primary n) && is_healthy n.

(** [standbys] before and after the sort of [trigger_failover]. *)
Definition standbys (o : Orchestrator) : list nat := refs_where eligible 0 (nodes o).

Definition sorted_standbys (o : Orchestrator) : list nat :=
  sort_by (fun r => replication_lag (node_at o r)) (standbys o).

(** The candidate [standbys[0]], when there is a healthy standby. *)
Definition select_candidate (o : Orchestrator) : option nat :=
  match standbys o with
  | [] => None
  | r :: _ => Some (hd r (sorted_standbys o))
  end.

(** ** The failover machine *)

(** Calls that [trigger_failover] makes on the outside world. *)
Inductive Event : Type :=
| Sleep (secs : Z)
| CallGetReplicationLag (r : nat)
| CallPromoteToPrimary (r : nat).

(** The orchestrator while a coroutine runs: the current state, every
    state it went through (oldest first) and the calls made so far. *)
Record Machine : Type := mkMachine {
  cur : Orchestrator;
  history : list Orchestrator;
  calls : list Event
}.

Definition M (A : Type) : Type := Machine -> A * Machine.

Definition ret {A : Type} (a : A) : M A := fun m => (a, m).

Definition bind {A B : Type} (c : M A) (k : A -> M B) : M B :=
  fun m => let (a, m') := c m in k a m'.

Notation "x <- c ;; k" := (bind c (fun x => k))
  (at level 90, c at next level, right associativity).
Notation "c ;;; k" := (bind c (fun _ => k))
  (at level 90, right associativity).

Definition get : M Orchestrator := fun m => (cur m, m).

(** One mutation: the new state is entered in the history. *)
Definition modify (f : Orchestrator -> Orchestrator) : M unit :=
  fun m =>
    let o' := f (cur m) in
    (tt, {| cur := o'; history := history m ++ [o']; calls := calls m |}).

Definition emit (e : Event) : M unit :=
  fun m => (tt, {| cur := cur m; history := history m; calls := calls m ++ [e] |}).

(** A method call on the node behind reference [r]. *)
Definition on_node {A : Type} (r : nat) (f : DatabaseNode -> A * DatabaseNode) : M A :=
  o <- get ;;
  let (a, n') := f (node_at o r) in
  modify (update_node r (fun _ => n')) ;;;
  ret a.

Definition start (o : Orchestrator) : Machine :=
  {| cur := o; history := [o]; calls := [] |}.

(** Driver outcomes during one failover: [lag_probe k] answers the [k]-th
    re-measurement of the wait loop, [promote_cmd] the promotion. *)
Record FailoverDriver : Type := mkFailoverDriver {
  lag_probe : nat -> result (option Q);
  promote_cmd : result unit
}.

Inductive Outcome : Type :=
| AlreadyInProgress
| AbortedNoStandby
| Completed (waited : Z)
| PromotionFailed (waited : Z)
| OutOfFuel.

Definition max_wait : Z := 30.

(** The catch-up loop; [k] counts the iterations done and [waited] is the
    local of the same name.  [None] when [fuel] iterations did not reach the
    exit of the loop. *)
Fixpoint wait_loop (fuel : nat) (d : FailoverDriver) (new_primary : nat)
    (k : nat) (waited : Z) : M (option Z) :=
  o <- get ;;
  if Qlt_bool 1 (replication_lag (node_at o new_primary)) && (waited <? max_wait)%Z
  then
    match fuel with
    | O => ret None
    | S fuel' =>
        emit (Sleep 2) ;;;
        emit (CallGetReplicationLag new_primary) ;;;
        on_node new_primary (fun n => get_replication_lag n (lag_probe d k)) ;;;
        wait_loop fuel' d new_primary (S k) (waited + 2)%Z
    end
  else ret (Some waited).

(** Iterations that always suffice: [waited] grows by 2 up to [max_wait]. *)
Definition wait_fuel : nat := 15.

(** [trigger_failover] *)
Definition trigger_failover (d : FailoverDriver) : M Outcome :=
  o <- get ;;
  if failover_in_progress o then ret AlreadyInProgress
  else
    modify (set_failover_in_progress true) ;;;
    o <- get ;;
    match standbys o with
    | [] =>
        modify (set_failover_in_progress false) ;;;
        ret AbortedNoStandby
    | r :: _ =>
        let new_primary := hd r (sorted_standbys o) in
        w <- wait_loop wait_fuel d new_primary 0 0%Z ;;
        match w with
        | None => ret OutOfFuel
        | Some waited =>
            emit (CallPromoteToPrimary new_primary) ;;;
            promoted <- on_node new_primary (fun n => promote_to_primary n (promote_cmd d)) ;;
            (if promoted : bool then
               o <- get ;;
               let old_primary := primary_node o in
               modify (set_primary_node (Some new_primary)) ;;;
               match old_primary with
               | Some p => modify (update_node p (set_is_primary false))
               | None => ret tt
               end
             else ret tt) ;;;
            modify (set_failover_in_progress false) ;;;
            ret (if promoted then Completed waited else PromotionFailed waited)
        end
    end.

(** A failover entered in state [o]. *)
Definition run_failover (d : FailoverDriver) (o : Orchestrator) : Outcome * Machine :=
  trigger_failover d (start o).

Definition count_primaries (o : Orchestrator) : nat :=
  length (List.filter is_primary (nodes o)).

(** ** One tick of [monitor_cluster] *)

Record TickDriver : Type := mkTickDriver {
  tick_connect : nat -> result unit;
  tick_probe : nat -> result unit;
  tick_lag : nat -> result (option Q);
  tick_failover : FailoverDriver;
  tick_stats : nat -> result (option StatsRow);
  tick_now : string
}.

(** The body of the first [for node in self.nodes] loop. *)
Definition check_node (d : TickDriver) (r : nat) (n : DatabaseNode) : DatabaseNode :=
  let n1 := snd (health_check n (tick_connect d r) (tick_probe d r)) in
  if is_primary n1 then n1 else snd (get_replication_lag n1 (tick_lag d r)).

(** The body of the [while self.monitoring] loop after the sleep. *)
Definition monitor_tick (d : TickDriver) : M unit :=
  modify (fun o => set_nodes (imap (check_node d) (nodes o)) o) ;;;
  o <- get ;;
  (match primary_node o with
   | Some p =>
       if is_healthy (node_at o p) then ret tt
       else trigger_failover (tick_failover d) ;;; ret tt
   | None => ret tt
   end) ;;;
  modify (log_metrics (tick_now d) (tick_stats d)).

(** ** Predicates and scenarios used by the statements *)

(** The last [k] elements of a list, [l[-k:]]. *)
Definition keep_last {A : Type} (k : nat) (l : list A) : list A :=
  drop (length l - k) l.

(** The snapshots one call of [log_metrics] offers to the history, in
    registry order. *)
Fixpoint tick_snapshots (ts : string) (stats_out : nat -> result (option StatsRow))
    (r : nat) (ns : list DatabaseNode) : list Metric :=
  match ns with
  | [] => []
  | n :: ns' =>
      (if is_healthy n then [snapshot ts n (get_stats n (stats_out r))] else [])
      ++ tick_snapshots ts stats_out (S r) ns'
  end.

(** Role of every registered node, in registry order. *)
Definition roles (o : Orchestrator) : list bool := map is_primary (nodes o).

(** Two states that differ in the lags of their nodes at most. *)
Definition same_roles (o o' : Orchestrator) : Prop :=
  roles o = roles o' /\
  map is_healthy (nodes o) = map is_healthy (nodes o') /\
  primary_node o = primary_node o' /\
  failover_in_progress o = failover_in_progress o'.

(** A settled registry: the primary nodes are exactly the node that
    [primary_node] refers to. *)
Definition settled (o : Orchestrator) : Prop :=
  forall r n, nodes o !! r = Some n ->
    (is_primary n = true <-> primary_node o = Some r).

(** The calls of [iters] iterations of the catch-up loop on node [r]. *)
Fixpoint wait_calls (r : nat) (iters : nat) : list Event :=
  match iters with
  | O => []
  | S i => Sleep 2 :: CallGetReplicationLag r :: wait_calls r i
  end.

(** A re-measurement that leaves a lag above one second behind: a value
    above 1.0, or a failed probe (the stored lag stays). *)
Definition stays_above (out : result (option Q)) : Prop :=
  match out with
  | Ok (Some q) => 1 < q
  | Ok None => False
  | Raised => True
  end.

(** The cluster of [main]: three nodes on local ports. *)
Definition demo_node (nm : string) (pt : Z) : DatabaseNode :=
  new_node nm "localhost" pt "postgres" "postgres" "postgres".

Definition connected (n : DatabaseNode) : DatabaseNode :=
  set_connection (Some ConnOpen) n.

Definition standby (nm : string) (pt : Z) (lag : Q) : DatabaseNode :=
  set_replication_lag lag (connected (demo_node nm pt)).

Definition primary_down : DatabaseNode :=
  set_is_healthy false (set_is_primary true (connected (demo_node "primary-us-west-2" 5435))).

Definition cluster_of (ns : list DatabaseNode) : Orchestrator :=
  foldl add_node new_orchestrator ns.

(** Primary down, standbys at 0.3 s and 1.8 s. *)
Definition cluster3 : Orchestrator :=
  cluster_of [primary_down;
              standby "standby-us-east-1" 5436 (3 # 10);
              standby "standby-eu-west-1" 5437 (18 # 10)].

(** Primary down, one standby stuck at 5 s. *)
Definition cluster_lagging : Orchestrator :=
  cluster_of [primary_down; standby "standby-us-east-1" 5436 5].

(** Standbys A (2.0 s), B (0.5 s), C (0.1 s, unhealthy), D (0.5 s). *)
Definition cluster_abcd : Orchestrator :=
  cluster_of [primary_down;
              standby "A" 5436 2;
              standby "B" 5437 (1 # 2);
              set_is_healthy false (standby "C" 5438 (1 # 10));
              standby "D" 5439 (1 # 2)].

Definition driver_fixed (lag : Q) (promote : result unit) : FailoverDriver :=
  {| lag_probe := fun _ => Ok (Some lag); promote_cmd := promote |}.

(** A standby at 0.4 s. *)
Definition s1_node : DatabaseNode := standby "S1" 5436 (4 # 10).

(** A node whose connection attempt at [initialize] failed. *)
Definition never_connected : DatabaseNode :=
  snd (connect (demo_node "standby-us-east-1" 5436) Raised).

(** The statements of [trigger_failover] that follow the catch-up loop,
    for a candidate [new_primary] and the [waited] the loop ended with. *)
Definition after_wait (d : FailoverDriver) (new_primary : nat) (waited : Z) : M Outcome :=
  emit (CallPromoteToPrimary new_primary) ;;;
  promoted <- on_node new_primary (fun n => promote_to_primary n (promote_cmd d)) ;;
  (if promoted : bool then
     o <- get ;;
     let old_primary := primary_node o in
     modify (set_primary_node (Some new_primary)) ;;;
     match old_primary with
     | Some p => modify (update_node p (set_is_primary false))
     | None => ret tt
     end
   else ret tt) ;;;
  modify (set_failover_in_progress false) ;;;
  ret (if promoted then Completed waited else PromotionFailed waited).

(** The state in which the catch-up loop starts. *)
Definition entered (o : Orchestrator) : Orchestrator :=
  set_failover_in_progress true o.

(** The state after the call of [promote_to_primary] on node [c]. *)
Definition promote_state (d : FailoverDriver) (c : nat) (o : Orchestrator) : Orchestrator :=
  update_node c (fun _ => snd (promote_to_primary (node_at o c) (promote_cmd d))) o.

Definition promote_ok (d : FailoverDriver) (c : nat) (o : Orchestrator) : bool :=
  fst (promote_to_primary (node_at o c) (promote_cmd d)).

(** The states of the registry switch after a successful promotion. *)
Definition switch_states (c : nat) (o : Orchestrator) : list Orchestrator :=
  let o1 := set_primary_node (Some c) o in
  match primary_node o with
  | Some p => [o1; update_node p (set_is_primary false) o1]
  | None => [o1]
  end.

Definition count_true (l : list bool) : nat := length (List.filter (fun b => b) l).

(** The machine after the [k]-th iteration of the catch-up loop on node [c]. *)
Definition iteration (d : FailoverDriver) (c k : nat) (m : Machine) : Machine :=
  let o' := update_node c
              (fun _ => snd (get_replication_lag (node_at (cur m) c) (lag_probe d k)))
              (cur m) in
  {| cur := o'; history := history m ++ [o'];
     calls := calls m ++ [Sleep 2; CallGetReplicationLag c] |}.

(** [new_primary.replication_lag > 1.0 and waited < max_wait] *)
Definition keeps_waiting (c : nat) (waited : Z) (m : Machine) : bool :=
  Qlt_bool 1 (replication_lag (node_at (cur m) c)) && (waited <? max_wait)%Z.

(** One tick on the three-node cluster: every probe answers except the one
    of the primary, the standbys report their lags, statistics fail. *)
Definition tick_primary_lost : TickDriver :=
  {| tick_connect := fun _ => Ok tt;
     tick_probe := fun r => match r with O => Raised | S _ => Ok tt end;
     tick_lag := fun r => match r with
                          | 1%nat => Ok (Some (3 # 10))
                          | _ => Ok (Some (18 # 10))
                          end;
     tick_failover := driver_fixed (3 # 10) (Ok tt);
     tick_stats := fun _ => Raised;
     tick_now := "2026-01-01T00:00:05" |}.

(** Two states whose nodes have the same names, health flags and
    connections, and that agree on the monitoring switch and the metrics. *)
Definition same_frame (o o' : Orchestrator) : Prop :=
  map name (nodes o) = map name (nodes o') /\
  map is_healthy (nodes o) = map is_healthy (nodes o') /\
  map connection (nodes o) = map connection (nodes o') /\
  monitoring o = monitoring o' /\
  metrics o = metrics o'.

(** The primary reference points into the registry. *)
Definition primary_in_registry (o : Orchestrator) : Prop :=
  forall p, primary_node o = Some p -> (p < length (nodes o))%nat.

(** A statistics row with 25 blocks read and 75 found in the cache. *)
Definition sample_row : StatsRow :=
  {| numbackends := 3; xact_commit := 120; xact_rollback := 2;
     blks_read := 25; blks_hit := 75 |}.

(** The three-node cluster before [initialize]: no node has a connection. *)
Definition cluster_unconnected : Orchestrator :=
  cluster_of [set_is_primary true (demo_node "primary-us-west-2" 5435);
              demo_node "standby-us-east-1" 5436;
              demo_node "standby-eu-west-1" 5437].

(** Connection attempts that fail on node 1 only. *)
Definition connect_all_but_1 (r : nat) : result unit :=
  match r with
  | 1%nat => Raised
  | _ => Ok tt
  end.

(** The three-node cluster with a healthy primary. *)
Definition cluster_up : Orchestrator :=
  cluster_of [set_is_primary true (connected (demo_node "primary-us-west-2" 5435));
              standby "standby-us-east-1" 5436 (3 # 10);
              standby "standby-eu-west-1" 5437 (18 # 10)].

(** A tick in which every probe and query answers. *)
Definition tick_all_up : TickDriver :=
  {| tick_connect := fun _ => Ok tt;
     tick_probe := fun _ => Ok tt;
     tick_lag := fun _ => Ok (Some (2 # 10));
     tick_failover := driver_fixed (2 # 10) (Ok tt);
     tick_stats := fun _ => Ok (Some sample_row);
     tick_now := "2026-01-01T00:00:10" |}.

(** The state after the health-check loop of a tick. *)
Definition checked (d : TickDriver) (o : Orchestrator) : Orchestrator :=
  set_nodes (imap (check_node d) (nodes o)) o.

(** * Node health model *)

Section NodeModel.

Variable n : DatabaseNode.

Lemma get_replication_lag_primary (out : result (option Q)) :
  is_primary n = true -> get_replication_lag n out = (0, n).
Proof. intros Hp. unfold get_replication_lag. now rewrite Hp. Qed.

Lemma get_replication_lag_failed (out : result (option Q)) :
  is_primary n = false -> through_connection n out = Raised ->
  get_replication_lag n out = (0, n).
Proof. intros Hp Hr. unfold get_replication_lag. now rewrite Hp, Hr. Qed.

Lemma get_replication_lag_measured (out : result (option Q)) (lag : option Q) :
  is_primary n = false -> through_connection n out = Ok lag ->
  get_replication_lag n out = (lag_or_zero lag, set_replication_lag (lag_or_zero lag) n).
Proof. intros Hp Hr. unfold get_replication_lag. now rewrite Hp, Hr. Qed.

(** Whatever the driver answers, only the lag field of the node moves. *)
Lemma get_replication_lag_fields (out : result (option Q)) :
  let n' := snd (get_replication_lag n out) in
  is_primary n' = is_primary n /\ is_healthy n' = is_healthy n /\
  connection n' = connection n /\ name n' = name n.
Proof.
  unfold get_replication_lag.
  destruct (is_primary n) eqn:Hp; [cbn; auto |].
  destruct (through_connection n out); cbn; auto.
Qed.

Lemma promote_to_primary_lag (out : result unit) :
  replication_lag (snd (promote_to_primary n out)) = replication_lag n.
Proof. unfold promote_to_primary. now destruct (through_connection n out). Qed.

Lemma promote_to_primary_role (out : result unit) :
  is_primary (snd (promote_to_primary n out))
  = (fst (promote_to_primary n out) || is_primary n)%bool.
Proof. unfold promote_to_primary. now destruct (through_connection n out). Qed.

Lemma promote_to_primary_health (out : result unit) :
  is_healthy (snd (promote_to_primary n out)) = is_healthy n.
Proof. unfold promote_to_primary. now destruct (through_connection n out). Qed.

(** On the probe path the flag follows the returned value. *)
Lemma health_check_probe_path (conn_out probe_out : result unit) :
  not_connected n = false ->
  is_healthy (snd (health_check n conn_out probe_out))
  = fst (health_check n conn_out probe_out).
Proof.
  intros Hc. unfold health_check. rewrite Hc. now destruct probe_out.
Qed.

(** A health check that returns [False] always leaves the node unhealthy. *)
Lemma health_check_false (conn_out probe_out : result unit) :
  fst (health_check n conn_out probe_out) = false ->
  is_healthy (snd (health_check n conn_out probe_out)) = false.
Proof.
  unfold health_check, connect.
  destruct (not_connected n); [destruct conn_out | destruct probe_out];
    cbn; congruence.
Qed.

(** A successful reconnection returns [True] and leaves the flag alone. *)
Lemma health_check_reconnect (probe_out : result unit) :
  not_connected n = true ->
  health_check n (Ok tt) probe_out = (true, set_connection (Some ConnOpen) n).
Proof. intros Hc. unfold health_check. now rewrite Hc. Qed.

End NodeModel.

(** C4. A standby whose lag query fails keeps its stored lag: the failed
    probe changes no field of the node, so the lag is not reset to 0. *)
Theorem failed_probe_retains_lag (n : DatabaseNode) (out : result (option Q)) :
  is_primary n = false ->
  through_connection n out = Raised ->
  snd (get_replication_lag n out) = n /\
  replication_lag (snd (get_replication_lag n out)) = replication_lag n.
Proof.
  intros Hp Hr. rewrite (get_replication_lag_failed n out Hp Hr). now split.
Qed.

Lemma failed_probe_retains_lag_witness :
  is_primary s1_node = false /\
  through_connection s1_node (@Raised (option Q)) = Raised /\
  snd (get_replication_lag s1_node Raised) = s1_node /\
  replication_lag (snd (get_replication_lag s1_node Raised)) = 4 # 10.
Proof.
  split; [reflexivity |]. split; [reflexivity |].
  apply (failed_probe_retains_lag s1_node Raised); reflexivity.
Defined.

(** C10. For a standby whose lag query fails the call returns 0.0 while the
    stored lag keeps its value: whenever the stored lag is not zero the
    returned value differs from it. *)
Theorem failed_probe_returns_zero (n : DatabaseNode) (out : result (option Q)) :
  is_primary n = false ->
  through_connection n out = Raised ->
  fst (get_replication_lag n out) = 0 /\
  replication_lag (snd (get_replication_lag n out)) = replication_lag n /\
  (~ replication_lag n == 0 ->
   ~ fst (get_replication_lag n out) == replication_lag (snd (get_replication_lag n out))).
Proof.
  intros Hp Hr. rewrite (get_replication_lag_failed n out Hp Hr). cbn.
  repeat split. intros Hnz Heq. apply Hnz. now symmetry.
Qed.

Lemma failed_probe_returns_zero_witness :
  is_primary s1_node = false /\
  through_connection s1_node (@Raised (option Q)) = Raised /\
  fst (get_replication_lag s1_node Raised) = 0 /\
  ~ fst (get_replication_lag s1_node Raised)
    == replication_lag (snd (get_replication_lag s1_node Raised)).
Proof.
  split; [reflexivity |]. split; [reflexivity |].
  destruct (failed_probe_returns_zero s1_node Raised eq_refl eq_refl) as (H0 & _ & Hd).
  split; [exact H0 |]. apply Hd. discriminate.
Defined.

(** C8. The reconnect path of [health_check]: a node that is marked
    unhealthy and has no usable connection gets [True] from a successful
    reconnection and stays marked unhealthy. *)
Theorem health_check_reconnect_stays_unhealthy
    (n : DatabaseNode) (probe_out : result unit) :
  not_connected n = true ->
  is_healthy n = false ->
  fst (health_check n (Ok tt) probe_out) = true /\
  is_healthy (snd (health_check n (Ok tt) probe_out)) = false.
Proof.
  intros Hc Hh. rewrite health_check_reconnect by exact Hc. now split.
Qed.

Lemma health_check_reconnect_stays_unhealthy_witness :
  not_connected never_connected = true /\
  is_healthy never_connected = false /\
  fst (health_check never_connected (Ok tt) (Ok tt)) = true /\
  is_healthy (snd (health_check never_connected (Ok tt) (Ok tt))) = false.
Proof.
  split; [reflexivity |]. split; [reflexivity |].
  apply (health_check_reconnect_stays_unhealthy never_connected (Ok tt)); reflexivity.
Defined.

(** * Metrics history *)

Section KeepLast.

Context {A : Type}.
Implicit Types l : list A.

Lemma length_keep_last (k : nat) l : length (keep_last k l) = Nat.min k (length l).
Proof. unfold keep_last. rewrite length_drop. lia. Qed.

Lemma keep_last_all (k : nat) l : (length l <= k)%nat -> keep_last k l = l.
Proof.
  intros Hk. unfold keep_last.
  replace (length l - k)%nat with 0%nat by lia. reflexivity.
Qed.

Lemma keep_last_split (k : nat) l : take (length l - k) l ++ keep_last k l = l.
Proof. apply take_drop. Qed.

Lemma keep_last_app (k : nat) l1 l2 :
  (length l2 <= k)%nat ->
  keep_last k (l1 ++ l2) = keep_last (k - length l2) l1 ++ l2.
Proof.
  intros Hk. unfold keep_last. rewrite length_app.
  replace (length l1 + length l2 - k)%nat
    with (length l1 - (k - length l2))%nat by lia.
  apply drop_app_le. lia.
Qed.

Lemma keep_last_keep_last_app (k : nat) l1 l2 :
  keep_last k (keep_last k l1 ++ l2) = keep_last k (l1 ++ l2).
Proof.
  destruct (Nat.le_gt_cases (length l1) k) as [Hle | Hgt].
  - now rewrite (keep_last_all k l1).
  - unfold keep_last at 1 3.
    rewrite !length_app, length_keep_last.
    replace (Nat.min k (length l1)) with k by lia.
    unfold keep_last.
    rewrite <- (drop_app_le l1 l2 (length l1 - k)) by lia.
    rewrite drop_drop. f_equal. lia.
Qed.

Lemma in_keep_last_app (k : nat) l1 l2 (x : A) :
  (length l2 <= k)%nat -> In x l2 -> In x (keep_last k (l1 ++ l2)).
Proof.
  intros Hk Hx. rewrite keep_last_app by exact Hk.
  apply in_or_app. now right.
Qed.

End KeepLast.

Lemma append_metric_keep_last (ms : list Metric) (m : Metric) :
  append_metric ms m = keep_last max_metrics (ms ++ [m]).
Proof.
  unfold append_metric.
  destruct (Nat.ltb_spec max_metrics (length (ms ++ [m]))) as [Hlt | Hge].
  - reflexivity.
  - now rewrite keep_last_all.
Qed.

(** When the history is full, the append drops its first entry. *)
Lemma append_metric_full (e m : Metric) (ms : list Metric) :
  length (e :: ms) = max_metrics ->
  append_metric (e :: ms) m = ms ++ [m].
Proof.
  intros Hlen. rewrite append_metric_keep_last. unfold keep_last.
  rewrite length_app, Hlen. cbn [length].
  replace (max_metrics + 1 - max_metrics)%nat with 1%nat by lia.
  reflexivity.
Qed.

Lemma length_tick_snapshots ts so r ns :
  (length (tick_snapshots ts so r ns) <= length ns)%nat.
Proof.
  revert r. induction ns as [| n ns IH]; intros r; cbn [tick_snapshots length].
  - lia.
  - rewrite length_app. specialize (IH (S r)). destruct (is_healthy n); cbn; lia.
Qed.

Lemma in_tick_snapshots ts so r ns i n :
  ns !! i = Some n -> is_healthy n = true ->
  In (snapshot ts n (get_stats n (so (r + i)%nat))) (tick_snapshots ts so r ns).
Proof.
  revert r i. induction ns as [| a ns IH]; intros r i Hi Hh; [discriminate |].
  cbn [tick_snapshots]. apply in_or_app. destruct i as [| i].
  - left. injection Hi as ->. rewrite Hh, Nat.add_0_r. now left.
  - right. replace (r + S i)%nat with (S r + i)%nat by lia. now apply IH.
Qed.

(** One call of [log_metrics] keeps the last hundred of the history
    extended by the snapshots of the healthy nodes. *)
Lemma log_nodes_keep_last ts so r ns ms :
  log_nodes ts so r ns ms =
  match tick_snapshots ts so r ns with
  | [] => ms
  | _ :: _ => keep_last max_metrics (ms ++ tick_snapshots ts so r ns)
  end.
Proof.
  revert r ms. induction ns as [| n ns IH]; intros r ms; [reflexivity |].
  cbn [log_nodes tick_snapshots]. rewrite IH. unfold log_node.
  destruct (is_healthy n); [| reflexivity].
  rewrite append_metric_keep_last. cbn [app].
  destruct (tick_snapshots ts so (S r) ns) as [| s ss]; [reflexivity |].
  rewrite keep_last_keep_last_app, <- app_assoc. reflexivity.
Qed.

Lemma length_log_metrics ts so o :
  (length (metrics (log_metrics ts so o)) <= Nat.max (length (metrics o)) max_metrics)%nat.
Proof.
  unfold log_metrics. cbn [metrics set_metrics]. rewrite log_nodes_keep_last.
  destruct (tick_snapshots ts so 0 (nodes o)); [lia |].
  rewrite length_keep_last. lia.
Qed.

(** C9. After an append the history holds at most 100 entries, the new
    entry is its last one, and what the append dropped is a prefix of the
    history: the oldest entries go first and the order of the others is
    kept.  A whole call of [log_metrics] never leaves more than 100 entries
    in a history that had at most 100. *)
Theorem metrics_history_bounded_fifo (ms : list Metric) (m : Metric) :
  (length (append_metric ms m) <= 100)%nat /\
  last (append_metric ms m) = Some m /\
  (exists evicted,
      ms ++ [m] = evicted ++ append_metric ms m /\
      length evicted = (length ms + 1 - 100)%nat) /\
  (forall ts so o,
      (length (metrics (log_metrics ts so o)) <= Nat.max (length (metrics o)) 100)%nat).
Proof.
  rewrite append_metric_keep_last. repeat split.
  - rewrite length_keep_last. unfold max_metrics. lia.
  - rewrite keep_last_app by (cbn; unfold max_metrics; lia). apply last_snoc.
  - exists (take (length (ms ++ [m]) - max_metrics) (ms ++ [m])). split.
    + symmetry. apply keep_last_split.
    + rewrite length_take, length_app. cbn. unfold max_metrics. lia.
  - intros ts so o. apply length_log_metrics.
Qed.

(** C3 (amended). A healthy node whose statistics query fails is not
    skipped: at its turn in [log_metrics] one snapshot is appended that
    carries its name, role, health and lag and no counter at all; with at
    most 100 registered nodes that snapshot is in the history when the call
    returns.  Unhealthy nodes are the ones that are skipped. *)
Theorem stats_failure_recorded_without_counters
    (ts : string) (so : nat -> result (option StatsRow))
    (o : Orchestrator) (r : nat) (n : DatabaseNode) :
  nodes o !! r = Some n ->
  is_healthy n = true ->
  get_stats n (so r) = None ->
  (forall ms, log_node ts n (so r) ms = append_metric ms (snapshot ts n None)) /\
  snapshot ts n None
    = {| m_timestamp := ts; m_node := name n; m_is_primary := is_primary n;
         m_is_healthy := true; m_replication_lag := replication_lag n;
         m_stats := None |} /\
  ((length (nodes o) <= 100)%nat ->
   In (snapshot ts n None) (metrics (log_metrics ts so o))) /\
  (forall n' out ms, is_healthy n' = false -> log_node ts n' out ms = ms).
Proof.
  intros Hr Hh Hs. repeat split.
  - intros ms. unfold log_node. now rewrite Hh, Hs.
  - unfold snapshot. now rewrite Hh.
  - intros Hlen. unfold log_metrics. cbn [metrics set_metrics].
    rewrite log_nodes_keep_last.
    pose proof (in_tick_snapshots ts so 0 (nodes o) r n Hr Hh) as Hin.
    cbn [Nat.add] in Hin. rewrite Hs in Hin.
    destruct (tick_snapshots ts so 0 (nodes o)) as [| s ss] eqn:Hsn; [destruct Hin |].
    apply in_keep_last_app; [| exact Hin].
    pose proof (length_tick_snapshots ts so 0 (nodes o)) as Hl.
    rewrite Hsn in Hl. unfold max_metrics. lia.
  - intros n' out ms Hu. unfold log_node. now rewrite Hu.
Qed.

Lemma stats_failure_recorded_without_counters_witness :
  nodes (cluster_of [s1_node]) !! 0%nat = Some s1_node /\
  is_healthy s1_node = true /\
  get_stats s1_node (@Raised (option StatsRow)) = None /\
  (forall ms, log_node "t" s1_node Raised ms
              = append_metric ms (snapshot "t" s1_node None)) /\
  In (snapshot "t" s1_node None)
     (metrics (log_metrics "t" (fun _ => Raised) (cluster_of [s1_node]))).
Proof.
  split; [reflexivity |]. split; [reflexivity |]. split; [reflexivity |].
  destruct (stats_failure_recorded_without_counters
              "t" (fun _ => Raised) (cluster_of [s1_node]) 0 s1_node
              eq_refl eq_refl eq_refl) as (Hnode & _ & Hin & _).
  split; [exact Hnode |]. apply Hin. vm_compute. lia.
Defined.

(** C3 (as stated). One healthy node whose statistics query raises: the
    call of [log_metrics] appends a snapshot of it, without counters. *)
Lemma stats_failure_is_not_skipped :
  is_healthy s1_node = true /\
  get_stats s1_node (@Raised (option StatsRow)) = None /\
  metrics (cluster_of [s1_node]) = [] /\
  metrics (log_metrics "t" (fun _ => Raised) (cluster_of [s1_node]))
  = [ {| m_timestamp := "t"; m_node := "S1"; m_is_primary := false;
         m_is_healthy := true; m_replication_lag := 4 # 10; m_stats := None |} ] /\
  metrics (log_metrics "t" (fun _ => Raised) (cluster_of [s1_node]))
  <> metrics (cluster_of [s1_node]).
Proof. repeat split. discriminate. Qed.

(** The hundred-and-first append drops the first entry, not the last; the
    entries are told apart by their lag, 1 to 101. *)
Example full_history_evicts_oldest :
  let entry (i : nat) :=
    snapshot "t" (standby "S" 5436 (inject_Z (Z.of_nat i))) None in
  map m_replication_lag (append_metric (map entry (seq 1 100)) (entry 101%nat))
  = map (fun i => inject_Z (Z.of_nat i)) (seq 2 100) /\
  append_metric (map entry (seq 1 100)) (entry 101%nat) = map entry (seq 2 100).
Proof. vm_compute. split; reflexivity. Qed.

(** * Candidate selection *)

Lemma Qlt_bool_iff (x y : Q) : Qlt_bool x y = true <-> x < y.
Proof.
  unfold Qlt_bool. rewrite negb_true_iff. split.
  - intros Hb. apply Qnot_le_lt. intros Hle.
    apply Qle_bool_iff in Hle. congruence.
  - intros Hlt. destruct (Qle_bool y x) eqn:Hb; [| reflexivity].
    apply Qle_bool_iff in Hb. exfalso. exact (Qlt_not_le _ _ Hlt Hb).
Qed.

Lemma Qlt_bool_false (x y : Q) : Qlt_bool x y = false <-> y <= x.
Proof.
  unfold Qlt_bool. rewrite negb_false_iff. apply Qle_bool_iff.
Qed.

Section StableSort.

Context {A : Type} (key : A -> Q).

Lemma insert_by_nonempty (x : A) (s : list A) : insert_by key x s <> [].
Proof. destruct s as [| y s]; cbn; [| destruct (Qlt_bool _ _)]; discriminate. Qed.

Lemma length_insert_by (x : A) (s : list A) :
  length (insert_by key x s) = S (length s).
Proof.
  induction s as [| y s IH]; cbn; [reflexivity |].
  destruct (Qlt_bool _ _); cbn; now rewrite ?IH.
Qed.

Lemma length_sort_by (l : list A) : length (sort_by key l) = length l.
Proof.
  induction l as [| x l IH]; cbn; [reflexivity |].
  fold (sort_by key l). now rewrite length_insert_by, IH.
Qed.

(** The head of the sorted list is the first element of the input whose
    key is minimal: the elements before it have a strictly larger key,
    the elements after it a key that is not smaller. *)
Lemma hd_sort_by (d : A) (l : list A) :
  l <> [] ->
  exists l1 l2,
    l = l1 ++ hd d (sort_by key l) :: l2 /\
    Forall (fun y => key (hd d (sort_by key l)) < key y) l1 /\
    Forall (fun y => key (hd d (sort_by key l)) <= key y) l2.
Proof.
  induction l as [| a l IH]; intros Hne; [congruence |].
  cbn [sort_by foldr]. fold (sort_by key l).
  destruct l as [| b l].
  - exists [], []. cbn. repeat split; constructor.
  - destruct IH as (l1 & l2 & Hl & H1 & H2); [discriminate |].
    destruct (sort_by key (b :: l)) as [| y s] eqn:Hs.
    + apply (f_equal length) in Hs. rewrite length_sort_by in Hs. discriminate.
    + cbn [hd] in Hl, H1, H2. cbn [insert_by].
      destruct (Qlt_bool (key y) (key a)) eqn:Hlt; cbn [hd].
      * apply Qlt_bool_iff in Hlt.
        exists (a :: l1), l2. rewrite Hl. repeat split; [constructor |]; assumption.
      * apply Qlt_bool_false in Hlt.
        exists [], (b :: l). repeat split; [constructor |].
        rewrite Hl. apply Forall_app. split; [| constructor].
        -- eapply Forall_impl; [exact H1 |]. cbn. intros z Hz.
           apply Qlt_le_weak. eapply Qle_lt_trans; eassumption.
        -- exact Hlt.
        -- eapply Forall_impl; [exact H2 |]. cbn. intros z Hz.
           eapply Qle_trans; eassumption.
Qed.

End StableSort.

Section Refs.

Variable p : DatabaseNode -> bool.

Lemma in_refs_where (r0 : nat) (ns : list DatabaseNode) (r : nat) :
  In r (refs_where p r0 ns) <->
  exists i n, r = (r0 + i)%nat /\ ns !! i = Some n /\ p n = true.
Proof.
  revert r0. induction ns as [| a ns IH]; intros r0; cbn [refs_where].
  - split; [intros [] | intros (i & n & _ & Hi & _); discriminate].
  - assert (Hrest : In r (refs_where p (S r0) ns) <->
                    exists i n, r = (r0 + S i)%nat /\ ns !! i = Some n /\ p n = true).
    { rewrite IH. split; intros (i & n & He & Hi & Hp); exists i, n;
        repeat split; try assumption; lia. }
    split.
    + intros Hin.
      assert (Hcase : (r = r0 /\ p a = true) \/ In r (refs_where p (S r0) ns)).
      { destruct (p a) eqn:Hp; [destruct Hin as [<- | Hin]|]; auto. }
      destruct Hcase as [[-> Hp] | Hin'].
      * exists 0%nat, a. repeat split; [lia | assumption].
      * apply Hrest in Hin' as (i & n & He & Hi & Hp).
        exists (S i), n. repeat split; assumption.
    + intros (i & n & He & Hi & Hp). destruct i as [| i].
      * injection Hi as ->. rewrite Hp. left. lia.
      * assert (Hin : In r (refs_where p (S r0) ns)).
        { apply Hrest. exists i, n. repeat split; assumption. }
        destruct (p a); [right |]; exact Hin.
Qed.

(** References come out in registry order. *)
Lemma refs_where_increasing (r0 : nat) (ns : list DatabaseNode) (l1 l2 : list nat) (c : nat) :
  refs_where p r0 ns = l1 ++ c :: l2 ->
  Forall (fun r => (r < c)%nat) l1 /\ Forall (fun r => (c < r)%nat) l2.
Proof.
  revert r0 l1. induction ns as [| a ns IH]; intros r0 l1 Heq; cbn [refs_where] in Heq.
  - destruct l1; discriminate.
  - destruct (p a).
    + destruct l1 as [| x l1]; cbn [app] in Heq; injection Heq as <- Heq.
      * split; [constructor |]. apply List.Forall_forall. intros r Hr.
        assert (Hin : In r (refs_where p (S r0) ns)) by (rewrite Heq; exact Hr).
        apply in_refs_where in Hin as (i & n & -> & _). lia.
      * destruct (IH _ _ Heq) as [H1 H2]. split; [| exact H2].
        constructor; [| exact H1].
        assert (Hin : In c (refs_where p (S r0) ns)).
        { rewrite Heq. apply in_or_app. right. now left. }
        apply in_refs_where in Hin as (i & n & -> & _). lia.
    + now apply IH in Heq.
Qed.

End Refs.

Lemma in_standbys (o : Orchestrator) (r : nat) :
  In r (standbys o) <-> exists n, nodes o !! r = Some n /\ eligible n = true.
Proof.
  unfold standbys. rewrite in_refs_where. split.
  - intros (i & n & -> & Hi & Hp). now exists n.
  - intros (n & Hi & Hp). now exists r, n.
Qed.

Lemma node_at_lookup (o : Orchestrator) (r : nat) (n : DatabaseNode) :
  nodes o !! r = Some n -> node_at o r = n.
Proof. intros Hr. unfold node_at. now apply list_lookup_total_correct. Qed.


(** * The failover machine *)

Lemma same_roles_refl (o : Orchestrator) : same_roles o o.
Proof. now repeat split. Qed.

Lemma same_roles_trans (o1 o2 o3 : Orchestrator) :
  same_roles o1 o2 -> same_roles o2 o3 -> same_roles o1 o3.
Proof.
  intros (H1 & H2 & H3 & H4) (K1 & K2 & K3 & K4).
  repeat split; congruence.
Qed.

Lemma map_alter_same {B : Type} (g : DatabaseNode -> B) (f : DatabaseNode -> DatabaseNode)
    (r : nat) (l : list DatabaseNode) :
  (forall n, l !! r = Some n -> g (f n) = g n) ->
  map g (alter f r l) = map g l.
Proof.
  revert r. induction l as [| a l IH]; intros r Hf; [reflexivity |].
  destruct r as [| r]; cbn.
  - f_equal. now apply Hf.
  - f_equal. apply IH. intros n Hn. now apply Hf.
Qed.

Lemma map_alter_insert {B : Type} (g : DatabaseNode -> B) (f : DatabaseNode -> DatabaseNode)
    (b : B) (r : nat) (l : list DatabaseNode) :
  (forall n, l !! r = Some n -> g (f n) = b) ->
  map g (alter f r l) = <[r := b]> (map g l).
Proof.
  revert r. induction l as [| a l IH]; intros r Hf; [reflexivity |].
  destruct r as [| r]; cbn.
  - f_equal. now apply Hf.
  - f_equal. apply IH. intros n Hn. now apply Hf.
Qed.

(** A re-measurement of the lag of node [c] changes no role, no health
    flag, no registry reference. *)
Lemma same_roles_measure (o : Orchestrator) (c : nat) (out : result (option Q)) :
  same_roles o (update_node c (fun _ => snd (get_replication_lag (node_at o c) out)) o).
Proof.
  unfold same_roles, roles, update_node. cbn [nodes set_nodes primary_node failover_in_progress].
  repeat split; symmetry; apply map_alter_same; intros n Hn;
    rewrite (node_at_lookup o c n Hn);
    apply (get_replication_lag_fields n out).
Qed.

Lemma bind_run {A B : Type} (c : M A) (k : A -> M B) (m : Machine) :
  bind c k m = k (fst (c m)) (snd (c m)).
Proof. unfold bind. now destruct (c m). Qed.

Lemma on_node_run {A : Type} (r : nat) (f : DatabaseNode -> A * DatabaseNode) (m : Machine) :
  on_node r f m
  = (fst (f (node_at (cur m) r)),
     let o' := update_node r (fun _ => snd (f (node_at (cur m) r))) (cur m) in
     {| cur := o'; history := history m ++ [o']; calls := calls m |}).
Proof.
  unfold on_node, bind, get, modify, ret.
  now destruct (f (node_at (cur m) r)).
Qed.

Lemma wait_loop_exit (fuel : nat) (d : FailoverDriver) (c k : nat) (waited : Z) (m : Machine) :
  keeps_waiting c waited m = false ->
  wait_loop fuel d c k waited m = (Some waited, m).
Proof.
  intros Hc. unfold keeps_waiting in Hc.
  destruct fuel; cbn [wait_loop]; rewrite bind_run; unfold get; cbn [fst snd];
    now rewrite Hc.
Qed.

Lemma wait_loop_iterate (fuel : nat) (d : FailoverDriver) (c k : nat) (waited : Z) (m : Machine) :
  keeps_waiting c waited m = true ->
  wait_loop (S fuel) d c k waited m
  = wait_loop fuel d c (S k) (waited + 2) (iteration d c k m).
Proof.
  intros Hc. unfold keeps_waiting in Hc.
  cbn [wait_loop]. rewrite bind_run. unfold get at 1. cbn [fst snd]. rewrite Hc.
  rewrite !bind_run, on_node_run. unfold emit. cbn [fst snd cur history calls].
  unfold iteration. now rewrite <- app_assoc.
Qed.

(** The catch-up loop returns within [wait_fuel] iterations, and what it
    leaves behind differs from its start in lags only. *)
Lemma wait_loop_run (d : FailoverDriver) (c : nat) (fuel k : nat) (m : Machine) :
  (k <= 15)%nat -> (15 <= k + fuel)%nat ->
  exists k' o' hs,
    wait_loop fuel d c k (2 * Z.of_nat k) m
    = (Some (2 * Z.of_nat k')%Z,
       {| cur := o'; history := history m ++ hs;
          calls := calls m ++ wait_calls c (k' - k) |}) /\
    (k <= k' <= 15)%nat /\
    same_roles (cur m) o' /\
    Forall (same_roles (cur m)) hs /\
    (Qlt_bool 1 (replication_lag (node_at o' c)) = false \/ k' = 15%nat).
Proof.
  revert k m. induction fuel as [| fuel IH]; intros k m Hk Hfuel.
  - assert (k = 15%nat) as -> by lia.
    exists 15%nat, (cur m), []. rewrite wait_loop_exit.
    + rewrite !app_nil_r. destruct m; cbn.
      repeat split; try lia; auto using same_roles_refl.
    + unfold keeps_waiting. apply andb_false_r.
  - destruct (keeps_waiting c (2 * Z.of_nat k) m) eqn:Hcond.
    + rewrite (wait_loop_iterate _ _ _ _ _ _ Hcond).
      apply andb_true_iff in Hcond as [Hlag Hw].
      apply Z.ltb_lt in Hw. unfold max_wait in Hw.
      replace (2 * Z.of_nat k + 2)%Z with (2 * Z.of_nat (S k))%Z by lia.
      destruct (IH (S k) (iteration d c k m) ltac:(lia) ltac:(lia))
        as (k' & o' & hs & Hrun & Hkk & Hsr & Hhs & Hexit).
      assert (Hstep : same_roles (cur m) (cur (iteration d c k m)))
        by apply same_roles_measure.
      exists k', o', (cur (iteration d c k m) :: hs). split.
      * rewrite Hrun. f_equal. cbn [iteration history calls cur].
        rewrite <- !app_assoc. cbn [app].
        replace (k' - k)%nat with (S (k' - S k)) by lia. reflexivity.
      * split; [lia |]. split; [eapply same_roles_trans; eassumption |].
        split; [| exact Hexit].
        constructor; [exact Hstep |].
        eapply Forall_impl; [exact Hhs |]. intros s Hs.
        eapply same_roles_trans; eassumption.
    + rewrite (wait_loop_exit _ _ _ _ _ _ Hcond).
      exists k, (cur m), []. rewrite Nat.sub_diag, !app_nil_r.
      destruct m; cbn [cur history calls]. split; [reflexivity |].
      split; [lia |]. split; [apply same_roles_refl |]. split; [constructor |].
      apply andb_false_iff in Hcond as [Hc | Hc]; [now left |].
      apply Z.ltb_ge in Hc. unfold max_wait in Hc. right. lia.
Qed.

Lemma node_at_in_range (o : Orchestrator) (c : nat) :
  ~ replication_lag (node_at o c) == 0 -> (c < length (nodes o))%nat.
Proof.
  intros Hlag. destruct (Nat.lt_ge_cases c (length (nodes o))) as [Hlt | Hge]; [exact Hlt |].
  exfalso. apply Hlag. unfold node_at. rewrite list_lookup_total_alt.
  now rewrite (lookup_ge_None_2 _ _ Hge).
Qed.

Lemma node_at_update (o : Orchestrator) (c : nat) (n' : DatabaseNode) :
  (c < length (nodes o))%nat ->
  node_at (update_node c (fun _ => n') o) c = n'.
Proof.
  intros Hc. unfold node_at, update_node. cbn [nodes set_nodes].
  apply list_lookup_total_correct. rewrite list_lookup_alter_eq.
  destruct (lookup_lt_is_Some_2 _ _ Hc) as [x ->]. reflexivity.
Qed.

(** A re-measurement that stays above one second leaves a stored lag above
    one second when the stored lag was. *)
Lemma measure_stays_above (n : DatabaseNode) (out : result (option Q)) :
  stays_above out -> 1 < replication_lag n ->
  1 < replication_lag (snd (get_replication_lag n out)).
Proof.
  intros Hout Hn. unfold get_replication_lag.
  destruct (is_primary n); [exact Hn |].
  unfold through_connection. destruct (connection n); [| exact Hn].
  destruct out as [[q |] |]; cbn in *; [| contradiction | exact Hn].
  destruct (Qeq_bool q 0) eqn:Hz; [| exact Hout].
  apply Qeq_bool_iff in Hz. rewrite Hz in Hout. discriminate.
Qed.

(** When every re-measurement stays above one second the loop runs until
    [waited] reaches [max_wait]. *)
Lemma wait_loop_times_out (d : FailoverDriver) (c : nat) :
  (forall j, stays_above (lag_probe d j)) ->
  forall (fuel k : nat) (m : Machine),
    (k <= 15)%nat -> (15 <= k + fuel)%nat ->
    1 < replication_lag (node_at (cur m) c) ->
    fst (wait_loop fuel d c k (2 * Z.of_nat k) m) = Some 30%Z /\
    1 < replication_lag (node_at (cur (snd (wait_loop fuel d c k (2 * Z.of_nat k) m))) c).
Proof.
  intros Hab. induction fuel as [| fuel IH]; intros k m Hk Hfuel Hlag.
  - assert (k = 15%nat) as -> by lia.
    rewrite wait_loop_exit; [now split |].
    unfold keeps_waiting. apply andb_false_r.
  - destruct (keeps_waiting c (2 * Z.of_nat k) m) eqn:Hcond.
    + rewrite (wait_loop_iterate _ _ _ _ _ _ Hcond).
      apply andb_true_iff in Hcond as [_ Hw].
      apply Z.ltb_lt in Hw. unfold max_wait in Hw.
      replace (2 * Z.of_nat k + 2)%Z with (2 * Z.of_nat (S k))%Z by lia.
      apply IH; [lia | lia |]. cbn [iteration cur].
      rewrite node_at_update.
      * apply measure_stays_above; [apply Hab | exact Hlag].
      * apply node_at_in_range. intros Hz. rewrite Hz in Hlag. discriminate.
    + rewrite (wait_loop_exit _ _ _ _ _ _ Hcond).
      apply andb_false_iff in Hcond as [Hc | Hc].
      * apply Qlt_bool_iff in Hlag. congruence.
      * apply Z.ltb_ge in Hc. unfold max_wait in Hc.
        assert (k = 15%nat) as -> by lia. now split.
Qed.

Lemma after_wait_run (d : FailoverDriver) (c : nat) (waited : Z) (m : Machine) :
  after_wait d c waited m
  = let sP := promote_state d c (cur m) in
    if promote_ok d c (cur m)
    then (Completed waited,
          {| cur := set_failover_in_progress false (List.last (switch_states c sP) sP);
             history := history m ++ [sP] ++ switch_states c sP
                        ++ [set_failover_in_progress false (List.last (switch_states c sP) sP)];
             calls := calls m ++ [CallPromoteToPrimary c] |})
    else (PromotionFailed waited,
          {| cur := set_failover_in_progress false sP;
             history := history m ++ [sP; set_failover_in_progress false sP];
             calls := calls m ++ [CallPromoteToPrimary c] |}).
Proof.
  unfold after_wait. rewrite !bind_run, on_node_run. unfold emit.
  cbn [fst snd cur history calls]. fold (promote_ok d c (cur m)) (promote_state d c (cur m)).
  destruct (promote_ok d c (cur m)).
  - unfold bind, get, modify, ret, switch_states. cbn [fst snd cur history calls].
    destruct (primary_node (promote_state d c (cur m))) as [p |];
      cbn [fst snd cur history calls List.last];
      rewrite <- !app_assoc; reflexivity.
  - unfold bind, modify, ret. cbn [fst snd cur history calls].
    rewrite <- !app_assoc. reflexivity.
Qed.

Lemma trigger_failover_unfold (d : FailoverDriver) (m : Machine) :
  trigger_failover d m
  = if failover_in_progress (cur m) then (AlreadyInProgress, m)
    else
      let m1 := {| cur := entered (cur m); history := history m ++ [entered (cur m)];
                   calls := calls m |} in
      match standbys (cur m) with
      | [] =>
          (AbortedNoStandby,
           {| cur := set_failover_in_progress false (entered (cur m));
              history := history m1 ++ [set_failover_in_progress false (entered (cur m))];
              calls := calls m |})
      | r :: _ =>
          let c := hd r (sorted_standbys (cur m)) in
          match fst (wait_loop wait_fuel d c 0 0 m1) with
          | None => (OutOfFuel, snd (wait_loop wait_fuel d c 0 0 m1))
          | Some w => after_wait d c w (snd (wait_loop wait_fuel d c 0 0 m1))
          end
      end.
Proof.
  unfold trigger_failover, after_wait, bind, get, modify, ret.
  cbn [fst snd cur history calls].
  destruct (failover_in_progress (cur m)); [reflexivity |].
  change (standbys (set_failover_in_progress true (cur m))) with (standbys (cur m)).
  destruct (standbys (cur m)) as [| r rs]; [reflexivity |].
  change (sorted_standbys (set_failover_in_progress true (cur m)))
    with (sorted_standbys (cur m)).
  cbn zeta. fold (entered (cur m)).
  destruct (wait_loop wait_fuel d (hd r (sorted_standbys (cur m))) 0 0
      {| cur := entered (cur m); history := history m ++ [entered (cur m)];
         calls := calls m |}) as [[w |] m2]; reflexivity.
Qed.

(** A failover entered with the guard down and a candidate [c]: the loop
    makes [k] iterations through states that differ from the entry in lags
    only, and the promotion follows. *)
Lemma run_failover_candidate (d : FailoverDriver) (o : Orchestrator) (c : nat) :
  failover_in_progress o = false ->
  select_candidate o = Some c ->
  exists k o_w hs,
    run_failover d o
    = after_wait d c (2 * Z.of_nat k)
        {| cur := o_w; history := [o; entered o] ++ hs; calls := wait_calls c k |} /\
    (k <= 15)%nat /\
    same_roles (entered o) o_w /\
    Forall (same_roles (entered o)) hs /\
    (Qlt_bool 1 (replication_lag (node_at o_w c)) = false \/ k = 15%nat) /\
    wait_loop wait_fuel d c 0 0
      {| cur := entered o; history := [o; entered o]; calls := [] |}
    = (Some (2 * Z.of_nat k)%Z,
       {| cur := o_w; history := [o; entered o] ++ hs; calls := wait_calls c k |}).
Proof.
  intros Hflag Hsel. unfold select_candidate in Hsel.
  destruct (standbys o) as [| r rs] eqn:Hst; [discriminate |].
  injection Hsel as Hc.
  set (m1 := {| cur := entered o; history := [o; entered o]; calls := [] |}).
  destruct (wait_loop_run d c wait_fuel 0 m1 ltac:(lia) ltac:(unfold wait_fuel; lia))
    as (k & o_w & hs & Hrun & Hk & Hsr & Hhs & Hexit).
  change (2 * Z.of_nat 0)%Z with 0%Z in Hrun.
  rewrite Nat.sub_0_r in Hrun. cbn [m1 cur history calls app] in Hrun, Hsr, Hhs.
  exists k, o_w, hs.
  split; [| split; [lia | split; [exact Hsr | split; [exact Hhs | split; [exact Hexit | exact Hrun]]]]].
  unfold run_failover. rewrite trigger_failover_unfold. unfold start.
  cbn [cur history calls app]. rewrite Hflag, Hst. cbn zeta. rewrite Hc.
  fold m1. rewrite Hrun. reflexivity.
Qed.

Lemma run_failover_no_standby (d : FailoverDriver) (o : Orchestrator) :
  failover_in_progress o = false ->
  select_candidate o = None ->
  run_failover d o
  = (AbortedNoStandby, {| cur := o; history := [o; entered o; o]; calls := [] |}).
Proof.
  intros Hflag Hsel. unfold select_candidate in Hsel.
  destruct (standbys o) as [| r rs] eqn:Hst; [| discriminate].
  unfold run_failover. rewrite trigger_failover_unfold. unfold start.
  cbn [cur history calls app]. rewrite Hflag, Hst.
  assert (Ho : set_failover_in_progress false (entered o) = o).
  { destruct o. cbn in *. now subst. }
  now rewrite Ho.
Qed.

Lemma run_failover_guarded (d : FailoverDriver) (o : Orchestrator) :
  failover_in_progress o = true ->
  run_failover d o = (AlreadyInProgress, start o).
Proof.
  intros Hflag. unfold run_failover. rewrite trigger_failover_unfold.
  unfold start at 1. cbn [cur]. now rewrite Hflag.
Qed.

(** ** Roles along a failover *)

Lemma lookup_map {B : Type} (g : DatabaseNode -> B) (l : list DatabaseNode) (i : nat) :
  map g l !! i = g <$> l !! i.
Proof.
  revert i. induction l as [| a l IH]; intros [| i]; cbn; auto.
Qed.

Lemma count_primaries_roles (o : Orchestrator) :
  count_primaries o = count_true (roles o).
Proof.
  unfold count_primaries, count_true, roles.
  induction (nodes o) as [| n l IH]; cbn; [reflexivity |].
  destruct (is_primary n); cbn; now rewrite IH.
Qed.

Lemma count_true_none (l : list bool) :
  (forall i, l !! i <> Some true) -> count_true l = 0%nat.
Proof.
  induction l as [| b l IH]; intros Hl; [reflexivity |].
  destruct b; [now specialize (Hl 0%nat) |].
  apply IH. intros i. exact (Hl (S i)).
Qed.

Lemma count_true_at_most_one (l : list bool) :
  (forall i j, l !! i = Some true -> l !! j = Some true -> i = j) ->
  (count_true l <= 1)%nat.
Proof.
  induction l as [| b l IH]; intros Hl; [cbn; lia |].
  destruct b.
  - unfold count_true. cbn. fold (count_true l).
    rewrite count_true_none; [lia |].
    intros i Hi. specialize (Hl 0%nat (S i) eq_refl Hi). discriminate.
  - apply IH. intros i j Hi Hj.
    specialize (Hl (S i) (S j) Hi Hj). lia.
Qed.

Lemma count_true_insert_true (l : list bool) (c : nat) :
  l !! c = Some false -> count_true (<[c := true]> l) = S (count_true l).
Proof.
  revert c. induction l as [| b l IH]; intros c Hc; [discriminate |].
  destruct c as [| c]; cbn in Hc.
  - injection Hc as ->. reflexivity.
  - unfold count_true in *. simpl. destruct b; simpl; now rewrite IH.
Qed.

Lemma count_true_insert_false (l : list bool) (p : nat) :
  (count_true (<[p := false]> l) <= count_true l)%nat /\
  (count_true l <= S (count_true (<[p := false]> l)))%nat.
Proof.
  revert p. induction l as [| b l IH]; intros p; [destruct p; cbn; lia |].
  destruct p as [| p]; unfold count_true in *; simpl.
  - destruct b; simpl; lia.
  - specialize (IH p). destruct b; simpl; lia.
Qed.

Lemma settled_roles (o : Orchestrator) :
  settled o <->
  forall r b, roles o !! r = Some b -> (b = true <-> primary_node o = Some r).
Proof.
  unfold settled, roles. split.
  - intros Hs r b Hr. rewrite lookup_map in Hr.
    destruct (nodes o !! r) as [n |] eqn:Hn; [| discriminate].
    injection Hr as <-. now apply Hs.
  - intros Hs r n Hn. apply Hs. now rewrite lookup_map, Hn.
Qed.

(** In a settled registry at most one node is primary. *)
Lemma settled_count (o : Orchestrator) : settled o -> (count_primaries o <= 1)%nat.
Proof.
  intros Hs. rewrite count_primaries_roles. apply count_true_at_most_one.
  rewrite settled_roles in Hs. intros i j Hi Hj.
  apply Hs in Hi, Hj. destruct Hi as [Hi _], Hj as [Hj _].
  specialize (Hi eq_refl). specialize (Hj eq_refl). congruence.
Qed.

Lemma roles_update_node (o : Orchestrator) (r : nat) (f : DatabaseNode -> DatabaseNode) (b : bool) :
  (forall n, nodes o !! r = Some n -> is_primary (f n) = b) ->
  roles (update_node r f o) = <[r := b]> (roles o).
Proof. intros Hf. unfold roles, update_node. cbn. now apply map_alter_insert. Qed.

Lemma select_candidate_eligible (o : Orchestrator) (c : nat) :
  select_candidate o = Some c ->
  exists nc, nodes o !! c = Some nc /\ eligible nc = true.
Proof.
  unfold select_candidate, sorted_standbys. intros Hsel.
  destruct (standbys o) as [| s ss] eqn:Hst; [discriminate |].
  injection Hsel as <-.
  destruct (hd_sort_by (fun r => replication_lag (node_at o r)) s (s :: ss))
    as (l1 & l2 & Hl & _); [discriminate |].
  apply in_standbys. rewrite Hst, Hl. apply in_or_app. right. now left.
Qed.

(** The role list of every state of a failover that found a candidate. *)
Lemma roles_promote_state (d : FailoverDriver) (o : Orchestrator) (c : nat) :
  roles o !! c = Some false ->
  roles (promote_state d c o) = <[c := promote_ok d c o]> (roles o) /\
  primary_node (promote_state d c o) = primary_node o.
Proof.
  intros Hc. split; [| reflexivity]. unfold promote_state, promote_ok.
  apply roles_update_node. intros n Hn.
  rewrite (node_at_lookup o c n Hn), promote_to_primary_role.
  unfold roles in Hc. rewrite lookup_map, Hn in Hc. injection Hc as ->.
  apply orb_false_r.
Qed.

(** ** Terminal paths *)

(** C7. A failover entered with the guard down ends on one of its three
    terminal paths (no healthy standby, promotion failed, promotion done;
    the loop never runs out of iterations) and returns with the guard
    down. *)
Theorem failover_returns_with_guard_down (d : FailoverDriver) (o : Orchestrator) :
  failover_in_progress o = false ->
  failover_in_progress (cur (snd (run_failover d o))) = false /\
  (fst (run_failover d o) = AbortedNoStandby \/
   (exists waited, fst (run_failover d o) = PromotionFailed waited) \/
   (exists waited, fst (run_failover d o) = Completed waited)).
Proof.
  intros Hflag. destruct (select_candidate o) as [c |] eqn:Hsel.
  - destruct (run_failover_candidate d o c Hflag Hsel)
      as (k & o_w & hs & Hrun & _).
    rewrite Hrun, after_wait_run. cbn zeta. cbn [cur].
    destruct (promote_ok d c o_w); cbn [fst snd cur]; split; eauto.
  - rewrite (run_failover_no_standby d o Hflag Hsel). cbn. auto.
Qed.

Lemma failover_returns_with_guard_down_witness :
  failover_in_progress cluster3 = false /\
  failover_in_progress
    (cur (snd (run_failover (driver_fixed (3 # 10) Raised) cluster3))) = false /\
  (fst (run_failover (driver_fixed (3 # 10) Raised) cluster3) = AbortedNoStandby \/
   (exists waited,
       fst (run_failover (driver_fixed (3 # 10) Raised) cluster3) = PromotionFailed waited) \/
   (exists waited,
       fst (run_failover (driver_fixed (3 # 10) Raised) cluster3) = Completed waited)).
Proof.
  split; [reflexivity |].
  apply (failover_returns_with_guard_down (driver_fixed (3 # 10) Raised) cluster3).
  reflexivity.
Defined.

(** Whatever the driver answers, the loop makes at most 15 iterations and
    the promotion is then called on the candidate. *)
Lemma failover_calls (d : FailoverDriver) (o : Orchestrator) (c : nat) :
  failover_in_progress o = false ->
  select_candidate o = Some c ->
  exists k,
    (k <= 15)%nat /\
    calls (snd (run_failover d o)) = wait_calls c k ++ [CallPromoteToPrimary c] /\
    (fst (run_failover d o) = Completed (2 * Z.of_nat k) \/
     fst (run_failover d o) = PromotionFailed (2 * Z.of_nat k)).
Proof.
  intros Hflag Hsel.
  destruct (run_failover_candidate d o c Hflag Hsel)
    as (k & o_w & hs & Hrun & Hk & _).
  exists k. split; [exact Hk |].
  rewrite Hrun, after_wait_run. cbn zeta. cbn [cur calls].
  destruct (promote_ok d c o_w); cbn [fst snd calls]; auto.
Qed.

(** C5. When some node is a healthy standby, the candidate is a healthy
    standby of minimal stored lag, and every healthy standby registered
    before it has a strictly larger lag. *)
Theorem candidate_is_first_of_minimal_lag (o : Orchestrator) :
  (exists r n, nodes o !! r = Some n /\ eligible n = true) ->
  exists c nc,
    select_candidate o = Some c /\
    nodes o !! c = Some nc /\
    is_primary nc = false /\ is_healthy nc = true /\
    (forall r n, nodes o !! r = Some n -> eligible n = true ->
       replication_lag nc <= replication_lag n /\
       ((r < c)%nat -> replication_lag nc < replication_lag n)) /\
    (forall d, failover_in_progress o = false ->
       exists k, calls (snd (run_failover d o))
                 = wait_calls c k ++ [CallPromoteToPrimary c]).
Proof.
  intros (r0 & n0 & Hr0 & He0).
  assert (Hin0 : In r0 (standbys o)) by (apply in_standbys; eauto).
  unfold select_candidate, sorted_standbys.
  destruct (standbys o) as [| s ss] eqn:Hst; [destruct Hin0 |].
  destruct (hd_sort_by (fun r => replication_lag (node_at o r)) s (s :: ss))
    as (l1 & l2 & Hl & H1 & H2); [discriminate |].
  set (c := hd s (sort_by (fun r => replication_lag (node_at o r)) (s :: ss))) in *.
  assert (Hc : In c (standbys o)).
  { rewrite Hst, Hl. apply in_or_app. right. now left. }
  apply in_standbys in Hc as (nc & Hnc & Hec).
  exists c, nc. split; [reflexivity |]. split; [exact Hnc |].
  unfold eligible in Hec. apply andb_true_iff in Hec as [Hp Hh].
  apply negb_true_iff in Hp. split; [exact Hp |]. split; [exact Hh |].
  split.
  2:{ intros d Hflag.
      assert (Hsel : select_candidate o = Some c).
      { unfold select_candidate, sorted_standbys. now rewrite Hst. }
      destruct (failover_calls d o c Hflag Hsel) as (k & _ & Hcalls & _).
      now exists k. }
  intros r n Hr He.
  assert (Hin : In r (s :: ss)).
  { rewrite <- Hst. apply in_standbys. eauto. }
  rewrite <- Hst in Hl. unfold standbys in Hl.
  destruct (refs_where_increasing _ _ _ _ _ _ Hl) as [Hlt1 Hgt2].
  unfold standbys in Hst. rewrite Hst in Hl. rewrite Hl in Hin.
  rewrite (node_at_lookup o c nc Hnc) in H1, H2.
  rewrite List.Forall_forall in H1, H2, Hlt1, Hgt2.
  apply in_app_or in Hin as [Hin | [<- | Hin]].
  - specialize (H1 r Hin). cbn in H1. rewrite (node_at_lookup o r n Hr) in H1.
    split; [now apply Qlt_le_weak | intros _; exact H1].
  - assert (n = nc) as -> by congruence.
    split; [apply Qle_refl | lia].
  - specialize (H2 r Hin). cbn in H2. rewrite (node_at_lookup o r n Hr) in H2.
    specialize (Hgt2 r Hin). split; [exact H2 | lia].
Qed.

Lemma candidate_is_first_of_minimal_lag_witness :
  (exists r n, nodes cluster_abcd !! r = Some n /\ eligible n = true) /\
  exists c nc,
    select_candidate cluster_abcd = Some c /\
    nodes cluster_abcd !! c = Some nc /\
    is_primary nc = false /\ is_healthy nc = true /\
    (forall r n, nodes cluster_abcd !! r = Some n -> eligible n = true ->
       replication_lag nc <= replication_lag n /\
       ((r < c)%nat -> replication_lag nc < replication_lag n)) /\
    (forall d, failover_in_progress cluster_abcd = false ->
       exists k, calls (snd (run_failover d cluster_abcd))
                 = wait_calls c k ++ [CallPromoteToPrimary c]).
Proof.
  assert (Hex : exists r n, nodes cluster_abcd !! r = Some n /\ eligible n = true).
  { exists 1%nat, (standby "A" 5436 2). split; reflexivity. }
  split; [exact Hex |].
  exact (candidate_is_first_of_minimal_lag cluster_abcd Hex).
Defined.

(** Of A (2.0 s), B (0.5 s), unhealthy C (0.1 s) and D (0.5 s) the
    candidate is B. *)
Example select_candidate_abcd :
  select_candidate cluster_abcd = Some 2%nat /\
  name (node_at cluster_abcd 2) = "B"%string.
Proof. split; reflexivity. Qed.

Lemma lag_promote_state (d : FailoverDriver) (c : nat) (o : Orchestrator) :
  replication_lag (node_at (promote_state d c o) c) = replication_lag (node_at o c).
Proof.
  unfold promote_state, node_at, update_node. cbn [nodes set_nodes].
  rewrite list_lookup_total_alter. case_decide; [| reflexivity].
  apply promote_to_primary_lag.
Qed.

Lemma lag_demote (p c : nat) (o : Orchestrator) :
  replication_lag (node_at (update_node p (set_is_primary false) o) c)
  = replication_lag (node_at o c).
Proof.
  unfold node_at, update_node. cbn [nodes set_nodes].
  rewrite list_lookup_total_alter. case_decide as Hd; [| reflexivity].
  destruct Hd as [-> _]. reflexivity.
Qed.

Lemma lag_after_switch (c : nat) (o : Orchestrator) :
  replication_lag
    (node_at (set_failover_in_progress false (List.last (switch_states c o) o)) c)
  = replication_lag (node_at o c).
Proof.
  unfold switch_states. destruct (primary_node o) as [p |]; cbn [List.last].
  - change (node_at (set_failover_in_progress false ?s) c) with (node_at s c).
    rewrite lag_demote. reflexivity.
  - reflexivity.
Qed.

(** C6. A candidate whose lag is above 1.0 s at selection and stays above
    it at every re-measurement is waited for during 15 iterations of 2 s,
    30 s in all; the promotion is then called on it, with its lag still
    above 1.0 s, and the failover ends as a promotion, done or failed, not as
    an abort. *)
Theorem catchup_timeout_still_promotes (d : FailoverDriver) (o : Orchestrator) (c : nat) :
  failover_in_progress o = false ->
  select_candidate o = Some c ->
  1 < replication_lag (node_at o c) ->
  (forall j, stays_above (lag_probe d j)) ->
  exists iterations,
    (iterations <= 15)%nat /\
    (2 * Z.of_nat iterations = 30)%Z /\
    calls (snd (run_failover d o))
    = wait_calls c iterations ++ [CallPromoteToPrimary c] /\
    (fst (run_failover d o) = Completed 30 \/
     fst (run_failover d o) = PromotionFailed 30) /\
    1 < replication_lag (node_at (cur (snd (run_failover d o))) c).
Proof.
  intros Hflag Hsel Hlag Hab.
  destruct (run_failover_candidate d o c Hflag Hsel)
    as (k & o_w & hs & Hrun & Hk & _ & _ & _ & Hloop).
  destruct (wait_loop_times_out d c Hab wait_fuel 0
              {| cur := entered o; history := [o; entered o]; calls := [] |}
              ltac:(lia) ltac:(unfold wait_fuel; lia) Hlag) as [Hw Hlag'].
  change (2 * Z.of_nat 0)%Z with 0%Z in Hw, Hlag'.
  rewrite Hloop in Hw, Hlag'. cbn [fst snd cur] in Hw, Hlag'.
  injection Hw as Hw.
  exists k. split; [exact Hk |]. split; [exact Hw |].
  rewrite Hrun, after_wait_run. cbn zeta. cbn [cur calls]. rewrite Hw.
  destruct (promote_ok d c o_w); cbn [fst snd calls cur].
  - split; [reflexivity |]. split; [now left |].
    now rewrite lag_after_switch, lag_promote_state.
  - split; [reflexivity |]. split; [now right |].
    change (node_at (set_failover_in_progress false ?s) c) with (node_at s c).
    now rewrite lag_promote_state.
Qed.

Lemma catchup_timeout_still_promotes_witness :
  failover_in_progress cluster_lagging = false /\
  select_candidate cluster_lagging = Some 1%nat /\
  1 < replication_lag (node_at cluster_lagging 1) /\
  (forall j, stays_above (lag_probe (driver_fixed 5 (Ok tt)) j)) /\
  exists iterations,
    (iterations <= 15)%nat /\
    (2 * Z.of_nat iterations = 30)%Z /\
    calls (snd (run_failover (driver_fixed 5 (Ok tt)) cluster_lagging))
    = wait_calls 1 iterations ++ [CallPromoteToPrimary 1] /\
    (fst (run_failover (driver_fixed 5 (Ok tt)) cluster_lagging) = Completed 30 \/
     fst (run_failover (driver_fixed 5 (Ok tt)) cluster_lagging) = PromotionFailed 30) /\
    1 < replication_lag
          (node_at (cur (snd (run_failover (driver_fixed 5 (Ok tt)) cluster_lagging))) 1).
Proof.
  assert (Hlag : 1 < replication_lag (node_at cluster_lagging 1)) by reflexivity.
  assert (Hab : forall j, stays_above (lag_probe (driver_fixed 5 (Ok tt)) j))
    by (intros j; reflexivity).
  split; [reflexivity |]. split; [reflexivity |].
  split; [exact Hlag |]. split; [exact Hab |].
  exact (catchup_timeout_still_promotes (driver_fixed 5 (Ok tt)) cluster_lagging 1
           eq_refl eq_refl Hlag Hab).
Defined.

(** The stuck standby is waited for 15 times and promoted after 30 s. *)
Example lagging_candidate_promoted :
  run_failover (driver_fixed 5 (Ok tt)) cluster_lagging
  = (Completed 30,
     snd (run_failover (driver_fixed 5 (Ok tt)) cluster_lagging)) /\
  calls (snd (run_failover (driver_fixed 5 (Ok tt)) cluster_lagging))
  = wait_calls 1 15 ++ [CallPromoteToPrimary 1] /\
  primary_node (cur (snd (run_failover (driver_fixed 5 (Ok tt)) cluster_lagging)))
  = Some 1%nat.
Proof. vm_compute. repeat split. Qed.

(** ** Number of primaries along a failover *)

Lemma same_roles_count (o s : Orchestrator) :
  same_roles o s -> count_primaries s = count_primaries o.
Proof. intros (Hr & _). rewrite !count_primaries_roles. now rewrite Hr. Qed.

Lemma settled_after_promotion (l : list bool) (old : option nat) (c : nat) :
  (forall r b, l !! r = Some b -> (b = true <-> old = Some r)) ->
  l !! c = Some false ->
  forall r b,
    match old with
    | Some p => <[p := false]> (<[c := true]> l)
    | None => <[c := true]> l
    end !! r = Some b ->
    (b = true <-> Some c = Some r).
Proof.
  intros Hs Hc r b Hr.
  assert (Hcl : (c < length l)%nat) by (eapply lookup_lt_Some; eassumption).
  assert (Hnew : forall b', <[c := true]> l !! r = Some b' -> r <> c ->
                 old <> Some r -> (b' = true <-> Some c = Some r)).
  { intros b' Hb' Hrc Hold. rewrite list_lookup_insert_ne in Hb' by congruence.
    apply Hs in Hb'. split; [intros Ht; apply Hb' in Ht; contradiction | congruence]. }
  destruct old as [p |].
  - destruct (decide (p = r)) as [-> | Hpr].
    + assert (Hrl : (r < length (<[c := true]> l))%nat).
      { apply lookup_lt_Some in Hr. now rewrite length_insert in Hr. }
      rewrite list_lookup_insert_eq in Hr by exact Hrl. injection Hr as <-.
      split; [discriminate |]. intros Hcr. injection Hcr as ->.
      apply Hs in Hc. destruct Hc as [_ Hc]. now specialize (Hc eq_refl).
    + rewrite list_lookup_insert_ne in Hr by exact Hpr.
      destruct (decide (r = c)) as [-> | Hrc].
      * rewrite list_lookup_insert_eq in Hr by exact Hcl. injection Hr as <-.
        split; reflexivity.
      * apply Hnew; [exact Hr | exact Hrc | congruence].
  - destruct (decide (r = c)) as [-> | Hrc].
    + rewrite list_lookup_insert_eq in Hr by exact Hcl. injection Hr as <-.
      split; reflexivity.
    + apply Hnew; [exact Hr | exact Hrc | discriminate].
Qed.

(** C2 (amended). From a settled registry, every state a failover goes
    through has at least as many primaries as the entry state and at most
    two; a completed failover goes through a state with one primary more
    than at entry, since the candidate is made primary before the old
    primary is demoted; the registry is settled again, with at most one
    primary, when the failover returns. *)
Theorem failover_primary_count (d : FailoverDriver) (o : Orchestrator) :
  settled o ->
  failover_in_progress o = false ->
  (forall s, In s (history (snd (run_failover d o))) ->
     (count_primaries o <= count_primaries s <= 2)%nat) /\
  (forall waited, fst (run_failover d o) = Completed waited ->
     exists s, In s (history (snd (run_failover d o))) /\
               count_primaries s = S (count_primaries o)) /\
  settled (cur (snd (run_failover d o))) /\
  (count_primaries (cur (snd (run_failover d o))) <= 1)%nat.
Proof.
  intros Hset Hflag.
  pose proof (settled_count o Hset) as Hn0.
  assert (Hgoal :
    (forall s, In s (history (snd (run_failover d o))) ->
       (count_primaries o <= count_primaries s <= 2)%nat) /\
    (forall waited, fst (run_failover d o) = Completed waited ->
       exists s, In s (history (snd (run_failover d o))) /\
                 count_primaries s = S (count_primaries o)) /\
    settled (cur (snd (run_failover d o)))).
  2:{ destruct Hgoal as (H1 & H2 & H3).
      split; [exact H1 |]. split; [exact H2 |]. split; [exact H3 |].
      now apply settled_count. }
  destruct (select_candidate o) as [c |] eqn:Hsel.
  2:{ rewrite (run_failover_no_standby d o Hflag Hsel). cbn [fst snd history cur].
      split; [| split; [discriminate | exact Hset]].
      intros s [<- | [<- | [<- | []]]];
        try change (count_primaries (entered o)) with (count_primaries o); lia. }
  destruct (select_candidate_eligible o c Hsel) as (nc & Hnc & Hel).
  apply andb_true_iff in Hel as [Hnp _]. apply negb_true_iff in Hnp.
  destruct (run_failover_candidate d o c Hflag Hsel)
    as (k & o_w & hs & Hrun & _ & Hsr & Hhs & _).
  assert (Hcw : count_primaries o_w = count_primaries o)
    by exact (same_roles_count (entered o) o_w Hsr).
  destruct Hsr as (Hroles & _ & Hprim & _).
  change (roles (entered o)) with (roles o) in Hroles.
  change (primary_node (entered o)) with (primary_node o) in Hprim.
  assert (Hc : roles o_w !! c = Some false).
  { rewrite <- Hroles. unfold roles. now rewrite lookup_map, Hnc, <- Hnp. }
  destruct (roles_promote_state d o_w c Hc) as [HrP HpP].
  set (sP := promote_state d c o_w) in *.
  assert (Hbefore : forall s, In s ([o; entered o] ++ hs) ->
                              count_primaries s = count_primaries o).
  { intros s Hs. apply in_app_or in Hs as [[<- | [<- | []]] | Hs]; try reflexivity.
    rewrite List.Forall_forall in Hhs.
    exact (same_roles_count (entered o) s (Hhs s Hs)). }
  rewrite Hrun, after_wait_run. cbn zeta. cbn [cur]. fold sP.
  destruct (promote_ok d c o_w) eqn:Hok; cbn [fst snd history cur].
  - (* promotion done *)
    assert (HcP : count_primaries sP = S (count_primaries o)).
    { rewrite count_primaries_roles, HrP, count_true_insert_true by exact Hc.
      now rewrite <- count_primaries_roles, Hcw. }
    assert (Hsw : forall s, In s (switch_states c sP) ->
              (count_primaries o <= count_primaries s <= 2)%nat).
    { unfold switch_states. intros s Hs.
      assert (HQ : count_primaries (set_primary_node (Some c) sP) = count_primaries sP)
        by reflexivity.
      assert (HR : forall p,
                (count_primaries o
                 <= count_primaries (update_node p (set_is_primary false)
                                       (set_primary_node (Some c) sP)) <= 2)%nat).
      { intros p.
        rewrite (count_primaries_roles (update_node p _ _)).
        rewrite (roles_update_node _ p (set_is_primary false) false) by reflexivity.
        pose proof (count_true_insert_false (roles (set_primary_node (Some c) sP)) p) as Hi.
        rewrite <- (count_primaries_roles (set_primary_node (Some c) sP)), HQ in Hi. lia. }
      destruct (primary_node sP) as [p |].
      - destruct Hs as [<- | [<- | []]]; [rewrite HQ; lia | apply HR].
      - destruct Hs as [<- | []]. rewrite HQ. lia. }
    assert (Hlast : In (List.last (switch_states c sP) sP) (switch_states c sP)).
    { unfold switch_states. destruct (primary_node sP); cbn; auto. }
    split; [| split].
    + intros s Hs. apply in_app_or in Hs as [Hs | Hs].
      { rewrite (Hbefore s Hs). lia. }
      cbn [app] in Hs. destruct Hs as [<- | Hs]; [lia |].
      apply in_app_or in Hs. destruct Hs as [Hs | Hs]; [now apply Hsw |].
      destruct Hs as [<- | []].
      change (count_primaries (set_failover_in_progress false ?s))
        with (count_primaries s). now apply Hsw.
    + intros _ _. exists sP. split; [| exact HcP].
      apply in_or_app. right. now left.
    + apply settled_roles.
      assert (HF : roles (set_failover_in_progress false (List.last (switch_states c sP) sP))
                   = match primary_node o with
                     | Some p => <[p := false]> (<[c := true]> (roles o_w))
                     | None => <[c := true]> (roles o_w)
                     end /\
                   primary_node (set_failover_in_progress false
                                   (List.last (switch_states c sP) sP)) = Some c).
      { unfold switch_states. rewrite HpP, <- Hprim.
        destruct (primary_node o) as [p |]; cbn [List.last].
        - split; [| reflexivity].
          change (roles (set_failover_in_progress false ?s)) with (roles s).
          rewrite (roles_update_node _ p (set_is_primary false) false) by reflexivity.
          change (roles (set_primary_node (Some c) sP)) with (roles sP).
          now rewrite HrP.
        - split; [| reflexivity].
          change (roles (set_failover_in_progress false (set_primary_node (Some c) sP)))
            with (roles sP). exact HrP. }
      destruct HF as [-> ->]. rewrite <- Hroles.
      apply settled_after_promotion.
      * now apply settled_roles.
      * now rewrite Hroles.
  - (* promotion failed *)
    assert (HrP' : roles sP = roles o).
    { rewrite HrP, Hroles. now apply list_insert_id. }
    assert (HcP : count_primaries sP = count_primaries o).
    { now rewrite !count_primaries_roles, HrP'. }
    split; [| split; [discriminate |]].
    + intros s Hs. apply in_app_or in Hs.
      destruct Hs as [Hs | [<- | [<- | []]]].
      * rewrite (Hbefore s Hs). lia.
      * lia.
      * change (count_primaries (set_failover_in_progress false sP))
          with (count_primaries sP). lia.
    + apply settled_roles.
      change (roles (set_failover_in_progress false sP)) with (roles sP).
      change (primary_node (set_failover_in_progress false sP)) with (primary_node sP).
      rewrite HrP', HpP, <- Hprim. now apply settled_roles.
Qed.

Lemma failover_primary_count_witness :
  settled cluster3 /\
  failover_in_progress cluster3 = false /\
  (forall s,
      In s (history (snd (run_failover (driver_fixed (3 # 10) (Ok tt)) cluster3))) ->
      (count_primaries cluster3 <= count_primaries s <= 2)%nat) /\
  (count_primaries
     (cur (snd (run_failover (driver_fixed (3 # 10) (Ok tt)) cluster3))) <= 1)%nat.
Proof.
  assert (Hset : settled cluster3).
  { intros r n Hr.
    destruct r as [| [| [| r]]]; vm_compute in Hr; try discriminate Hr;
      injection Hr as <-; vm_compute; split; intros H;
      first [reflexivity | discriminate H]. }
  split; [exact Hset |]. split; [reflexivity |].
  destruct (failover_primary_count (driver_fixed (3 # 10) (Ok tt)) cluster3 Hset eq_refl)
    as (Hall & _ & _ & Hend).
  split; [exact Hall | exact Hend].
Defined.

(** C2 (as stated). The failover of the three-node cluster goes through a
    state with two primaries: between the promotion of the standby and the
    demotion of the old primary. *)
Lemma failover_reaches_two_primaries :
  settled cluster3 /\
  failover_in_progress cluster3 = false /\
  map count_primaries
    (history (snd (run_failover (driver_fixed (3 # 10) (Ok tt)) cluster3)))
  = [1; 1; 2; 2; 1; 1]%nat /\
  ~ (forall s,
        In s (history (snd (run_failover (driver_fixed (3 # 10) (Ok tt)) cluster3))) ->
        (count_primaries s <= 1)%nat).
Proof.
  split.
  { intros r n Hr.
    destruct r as [| [| [| r]]]; vm_compute in Hr; try discriminate Hr;
      injection Hr as <-; vm_compute; split; intros H;
      first [reflexivity | discriminate H]. }
  split; [reflexivity |]. split; [reflexivity |].
  intros Hall.
  specialize (Hall (nth 2 (history (snd (run_failover (driver_fixed (3 # 10) (Ok tt))
                                           cluster3))) cluster3)).
  assert (Hin : In (nth 2 (history (snd (run_failover (driver_fixed (3 # 10) (Ok tt))
                                           cluster3))) cluster3)
                   (history (snd (run_failover (driver_fixed (3 # 10) (Ok tt)) cluster3)))).
  { apply nth_In. vm_compute. lia. }
  specialize (Hall Hin). vm_compute in Hall. lia.
Qed.

(** * Reporting the lag of a primary *)

Lemma last_append_metric (ms : list Metric) (m : Metric) :
  last (append_metric ms m) = Some m.
Proof.
  rewrite append_metric_keep_last.
  rewrite keep_last_app by (cbn; unfold max_metrics; lia). apply last_snoc.
Qed.

(** A candidate that needs no catch-up keeps its stored lag through the
    whole failover. *)
Lemma failover_keeps_candidate_lag (d : FailoverDriver) (o : Orchestrator) (c : nat) :
  failover_in_progress o = false ->
  select_candidate o = Some c ->
  replication_lag (node_at o c) <= 1 ->
  replication_lag (node_at (cur (snd (run_failover d o))) c)
  = replication_lag (node_at o c).
Proof.
  intros Hflag Hsel Hlag.
  destruct (run_failover_candidate d o c Hflag Hsel)
    as (k & o_w & hs & Hrun & _ & _ & _ & _ & Hloop).
  rewrite wait_loop_exit in Hloop.
  2:{ unfold keeps_waiting. cbn [cur].
      apply andb_false_iff. left. now apply Qlt_bool_false. }
  injection Hloop as _ <- _ _.
  rewrite Hrun, after_wait_run. cbn zeta. cbn [cur].
  destruct (promote_ok d c (entered o)); cbn [snd cur].
  - now rewrite lag_after_switch, lag_promote_state.
  - change (node_at (set_failover_in_progress false ?s) c) with (node_at s c).
    now rewrite lag_promote_state.
Qed.

(** C1 (amended). For a primary node [get_replication_lag] returns exactly
    0 and leaves the node as it is.  The status report and the metric
    snapshots show the stored lag field, and a promotion does not reset that
    field: [promote_to_primary] keeps it, and so does a whole failover for a
    candidate that needs no catch-up. *)
Theorem primary_lag_reporting (o : Orchestrator) (r : nat) (n : DatabaseNode) :
  nodes o !! r = Some n ->
  is_primary n = true ->
  (forall out, get_replication_lag n out = (0, n)) /\
  (forall ts,
      ns_replication_lag <$> (cs_nodes (get_cluster_status ts o) !! r)
      = Some (replication_lag n)) /\
  (forall ts out ms,
      is_healthy n = true ->
      m_replication_lag <$> last (log_node ts n out ms) = Some (replication_lag n)) /\
  (forall n0 out,
      replication_lag (snd (promote_to_primary n0 out)) = replication_lag n0) /\
  (forall d o0 c,
      failover_in_progress o0 = false ->
      select_candidate o0 = Some c ->
      replication_lag (node_at o0 c) <= 1 ->
      replication_lag (node_at (cur (snd (run_failover d o0))) c)
      = replication_lag (node_at o0 c)).
Proof.
  intros Hr Hp. split; [| split; [| split; [| split]]].
  - intros out. now apply get_replication_lag_primary.
  - intros ts. cbn [get_cluster_status cs_nodes].
    change (map node_status (nodes o)) with (node_status <$> nodes o).
    now rewrite list_lookup_fmap, Hr.
  - intros ts out ms Hh. unfold log_node. rewrite Hh, last_append_metric. reflexivity.
  - intros n0 out. apply promote_to_primary_lag.
  - intros d o0 c. apply failover_keeps_candidate_lag.
Qed.

Lemma primary_lag_reporting_witness :
  nodes cluster3 !! 0%nat = Some primary_down /\
  is_primary primary_down = true /\
  (forall out, get_replication_lag primary_down out = (0, primary_down)) /\
  (forall ts,
      ns_replication_lag <$> (cs_nodes (get_cluster_status ts cluster3) !! 0%nat)
      = Some (replication_lag primary_down)).
Proof.
  split; [reflexivity |]. split; [reflexivity |].
  destruct (primary_lag_reporting cluster3 0 primary_down eq_refl eq_refl)
    as (Hget & Hstatus & _).
  split; [exact Hget | exact Hstatus].
Defined.

(** C1 (as stated). After the failover of the three-node cluster the new
    primary has a stored lag of 0.3 s: [get_replication_lag] returns 0 for
    it, the status report and the metric snapshot show 0.3. *)
Lemma promoted_primary_reports_stored_lag :
  let o := cur (snd (run_failover (driver_fixed (3 # 10) (Ok tt)) cluster3)) in
  fst (run_failover (driver_fixed (3 # 10) (Ok tt)) cluster3) = Completed 0 /\
  primary_node o = Some 1%nat /\
  is_primary (node_at o 1) = true /\
  fst (get_replication_lag (node_at o 1) (Ok (Some (3 # 10)))) = 0 /\
  map (fun s => (ns_is_primary s, ns_replication_lag s))
      (cs_nodes (get_cluster_status "t" o))
  = [(false, 0); (true, 3 # 10); (false, 18 # 10)] /\
  map (fun m => (m_is_primary m, m_replication_lag m))
      (metrics (log_metrics "t" (fun _ => Raised) o))
  = [(true, 3 # 10); (false, 18 # 10)] /\
  ~ 3 # 10 == 0.
Proof. vm_compute. repeat split. discriminate. Qed.

(** * A monitoring tick *)

(** The tick that loses the primary: the failover promotes the standby at
    0.3 s and the two healthy nodes are logged, the new primary with its
    stored lag. *)
Example tick_with_failover :
  let m := snd (monitor_tick tick_primary_lost (start cluster3)) in
  primary_node (cur m) = Some 1%nat /\
  map is_primary (nodes (cur m)) = [false; true; false] /\
  map is_healthy (nodes (cur m)) = [false; true; true] /\
  failover_in_progress (cur m) = false /\
  calls m = [CallPromoteToPrimary 1] /\
  map (fun x => (m_node x, m_is_primary x, m_replication_lag x, m_stats x))
      (metrics (cur m))
  = [("standby-us-east-1"%string, true, 3 # 10, None);
     ("standby-eu-west-1"%string, false, 18 # 10, None)].
Proof. vm_compute. repeat split. Qed.

(** * Further properties of the node methods *)

(** X1. [health_check] that returns [False] leaves the node unhealthy; one that
    returns [True] leaves it with an open connection; it never touches the
    name, the role or the stored lag. *)
Theorem health_check_outcome (n : DatabaseNode) (conn_out probe_out : result unit) :
  (fst (health_check n conn_out probe_out) = false ->
   is_healthy (snd (health_check n conn_out probe_out)) = false) /\
  (fst (health_check n conn_out probe_out) = true ->
   connection (snd (health_check n conn_out probe_out)) = Some ConnOpen) /\
  name (snd (health_check n conn_out probe_out)) = name n /\
  is_primary (snd (health_check n conn_out probe_out)) = is_primary n /\
  replication_lag (snd (health_check n conn_out probe_out)) = replication_lag n.
Proof.
  unfold health_check, connect, not_connected.
  destruct (connection n) as [[|] |] eqn:Hc;
    [destruct probe_out | destruct conn_out | destruct conn_out];
    cbn; rewrite ?Hc; repeat split; congruence.
Qed.

(** X2. A node without usable connection that reconnects is marked healthy by
    the next check whose probe answers: recovery takes two checks. *)
Theorem health_recovers_on_second_check
    (n : DatabaseNode) (probe1 conn2 : result unit) :
  not_connected n = true ->
  fst (health_check n (Ok tt) probe1) = true /\
  is_healthy (snd (health_check n (Ok tt) probe1)) = is_healthy n /\
  fst (health_check (snd (health_check n (Ok tt) probe1)) conn2 (Ok tt)) = true /\
  is_healthy (snd (health_check (snd (health_check n (Ok tt) probe1)) conn2 (Ok tt)))
  = true.
Proof.
  intros Hc. rewrite health_check_reconnect by exact Hc. cbn [fst snd].
  repeat split.
Qed.

Lemma health_recovers_on_second_check_witness :
  not_connected never_connected = true /\
  is_healthy (snd (health_check never_connected (Ok tt) Raised)) = false /\
  is_healthy
    (snd (health_check (snd (health_check never_connected (Ok tt) Raised))
            Raised (Ok tt))) = true.
Proof.
  split; [reflexivity |].
  destruct (health_recovers_on_second_check never_connected Raised Raised eq_refl)
    as (_ & H1 & _ & H2).
  split; [exact H1 | exact H2].
Defined.

(** X3. A replay-delay query that answers NULL or zero on a connected standby
    stores 0 as the lag, whatever lag was stored before. *)
Theorem null_or_zero_lag_is_stored_as_zero (n : DatabaseNode) (lag : option Q) :
  is_primary n = false ->
  connection n <> None ->
  (lag = None \/ exists q, lag = Some q /\ q == 0) ->
  get_replication_lag n (Ok lag) = (0, set_replication_lag 0 n).
Proof.
  intros Hp Hc Hlag. unfold get_replication_lag, through_connection. rewrite Hp.
  destruct (connection n); [| congruence].
  assert (Hz : lag_or_zero lag = 0).
  { destruct Hlag as [-> | (q & -> & Hq)]; [reflexivity |].
    cbn. apply Qeq_bool_iff in Hq. now rewrite Hq. }
  cbn. now rewrite Hz.
Qed.

Lemma null_or_zero_lag_is_stored_as_zero_witness :
  is_primary s1_node = false /\
  connection s1_node <> None /\
  replication_lag s1_node = 4 # 10 /\
  get_replication_lag s1_node (Ok None) = (0, set_replication_lag 0 s1_node).
Proof.
  split; [reflexivity |]. split; [discriminate |]. split; [reflexivity |].
  apply (null_or_zero_lag_is_stored_as_zero s1_node None);
    [reflexivity | discriminate | now left].
Defined.

(** X4. [get_stats] gives the empty result exactly when the node has no
    connection, the query raises or it returns no row. *)
Theorem get_stats_empty_iff (n : DatabaseNode) (out : result (option StatsRow)) :
  get_stats n out = None <->
  connection n = None \/ out = Raised \/ out = Ok None.
Proof.
  unfold get_stats, through_connection.
  destruct (connection n) as [c |]; [| intuition].
  destruct out as [[r |] |]; split; intros H; try reflexivity; try discriminate H;
    auto; destruct H as [H | [H | H]]; discriminate H.
Qed.

(** X5. With non-negative block counters the cache-hit ratio is a percentage,
    and it is 0 when no block was read or hit: no division by zero. *)
Theorem cache_hit_ratio_is_a_percentage
    (n : DatabaseNode) (out : result (option StatsRow)) (s : Stats) :
  get_stats n out = Some s ->
  (0 <= blocks_read s)%Z ->
  (0 <= blocks_hit s)%Z ->
  0 <= cache_hit_ratio s /\ cache_hit_ratio s <= 100 /\
  ((blocks_read s + blocks_hit s = 0)%Z -> cache_hit_ratio s = 0).
Proof.
  unfold get_stats. destruct (through_connection n out) as [[r |] |]; try discriminate.
  intros Hs. injection Hs as <-. cbn. intros Hr Hh.
  destruct (Z.ltb_spec 0 (blks_read r + blks_hit r)) as [Hpos | Hzero].
  - assert (Hsum : 0 < inject_Z (blks_read r + blks_hit r)).
    { change 0 with (inject_Z 0). now rewrite <- Zlt_Qlt. }
    assert (H0 : 0 <= inject_Z (blks_hit r) / inject_Z (blks_read r + blks_hit r)).
    { apply Qle_shift_div_l; [exact Hsum |]. rewrite Qmult_0_l.
      change 0 with (inject_Z 0). now rewrite <- Zle_Qle. }
    assert (H1 : inject_Z (blks_hit r) / inject_Z (blks_read r + blks_hit r) <= 1).
    { apply Qle_shift_div_r; [exact Hsum |]. rewrite Qmult_1_l.
      rewrite <- Zle_Qle. lia. }
    split; [lra |]. split; [lra | lia].
  - split; [apply Qle_refl |]. split; [discriminate | reflexivity].
Qed.

Lemma cache_hit_ratio_is_a_percentage_witness :
  get_stats s1_node (Ok (Some sample_row))
  = Some {| active_connections := 3; transactions_committed := 120;
            transactions_rolled_back := 2; blocks_read := 25; blocks_hit := 75;
            cache_hit_ratio := inject_Z 75 / inject_Z (25 + 75) * 100 |} /\
  0 <= inject_Z 75 / inject_Z (25 + 75) * 100 /\
  inject_Z 75 / inject_Z (25 + 75) * 100 <= 100.
Proof.
  split; [reflexivity |].
  destruct (cache_hit_ratio_is_a_percentage s1_node (Ok (Some sample_row)) _ eq_refl)
    as (H0 & H1 & _); cbn; try lia.
  split; [exact H0 | exact H1].
Defined.

(** * Building and connecting the cluster *)

Lemma count_primaries_app (o : Orchestrator) (ns : list DatabaseNode) :
  count_primaries (set_nodes (nodes o ++ ns) o)
  = (count_primaries o + length (List.filter is_primary ns))%nat.
Proof.
  unfold count_primaries. cbn [nodes set_nodes].
  now rewrite List.filter_app, length_app.
Qed.

Lemma no_primary_lookup (l : list DatabaseNode) (r : nat) (n : DatabaseNode) :
  length (List.filter is_primary l) = 0%nat ->
  l !! r = Some n -> is_primary n = false.
Proof.
  revert r. induction l as [| a l IH]; intros r Hz Hr; [discriminate |].
  cbn in Hz. destruct (is_primary a) eqn:Ha; [discriminate |].
  destruct r as [| r]; [injection Hr as <-; exact Ha | now apply (IH r)].
Qed.

Lemma add_node_shape (o : Orchestrator) (n : DatabaseNode) :
  nodes (add_node o n) = nodes o ++ [n] /\
  primary_node (add_node o n)
  = (if is_primary n then Some (length (nodes o)) else primary_node o) /\
  count_primaries (add_node o n)
  = (count_primaries o + (if is_primary n then 1 else 0))%nat.
Proof.
  assert (Hn : nodes (add_node o n) = nodes o ++ [n]).
  { unfold add_node. now destruct (is_primary n). }
  split; [exact Hn |]. split.
  - unfold add_node. now destruct (is_primary n).
  - unfold count_primaries. rewrite Hn, List.filter_app, length_app. cbn.
    now destruct (is_primary n).
Qed.

(** X6. [add_node] puts the node at the end of the registry and leaves the
    nodes before it in place; a primary node becomes the primary reference,
    and no node that was primary before is demoted: adding a primary to a
    cluster that has one leaves two. *)
Theorem add_node_appends (o : Orchestrator) (n : DatabaseNode) :
  nodes (add_node o n) = nodes o ++ [n] /\
  nodes (add_node o n) !! length (nodes o) = Some n /\
  (forall r, (r < length (nodes o))%nat -> nodes (add_node o n) !! r = nodes o !! r) /\
  primary_node (add_node o n)
  = (if is_primary n then Some (length (nodes o)) else primary_node o) /\
  count_primaries (add_node o n)
  = (count_primaries o + (if is_primary n then 1 else 0))%nat.
Proof.
  destruct (add_node_shape o n) as (Hn & Hp & Hc).
  split; [exact Hn |]. rewrite Hn. split; [| split; [| split]].
  - rewrite lookup_app_r by lia. now rewrite Nat.sub_diag.
  - intros r Hr. now apply lookup_app_l.
  - exact Hp.
  - exact Hc.
Qed.

Lemma add_node_settled (o : Orchestrator) (n : DatabaseNode) :
  settled o -> primary_in_registry o ->
  (is_primary n = true -> count_primaries o = 0%nat) ->
  settled (add_node o n) /\ primary_in_registry (add_node o n).
Proof.
  intros Hs Hin Hnone.
  destruct (add_node_shape o n) as (Hn & Hp & _).
  split.
  - intros r x Hr. rewrite Hn in Hr. rewrite Hp.
    destruct (Nat.lt_ge_cases r (length (nodes o))) as [Hlt | Hge].
    + rewrite lookup_app_l in Hr by exact Hlt.
      destruct (is_primary n) eqn:Hpn.
      * rewrite (no_primary_lookup (nodes o) r x (Hnone eq_refl) Hr).
        split; [discriminate | intros H; injection H as H; lia].
      * now apply Hs.
    + rewrite lookup_app_r in Hr by exact Hge.
      destruct (r - length (nodes o))%nat as [| k] eqn:Hk; [| destruct k; discriminate].
      injection Hr as <-. assert (r = length (nodes o)) as -> by lia.
      destruct (is_primary n) eqn:Hpn; [now split |].
      split; [discriminate |]. intros H. apply Hin in H. lia.
  - intros p Hpp. rewrite Hp in Hpp. rewrite Hn, length_app. cbn.
    destruct (is_primary n); [injection Hpp as <-; lia |].
    apply Hin in Hpp. lia.
Qed.

Lemma foldl_add_node_settled (ns : list DatabaseNode) (o : Orchestrator) :
  settled o -> primary_in_registry o ->
  (count_primaries o + length (List.filter is_primary ns) <= 1)%nat ->
  settled (foldl add_node o ns) /\
  primary_in_registry (foldl add_node o ns) /\
  nodes (foldl add_node o ns) = nodes o ++ ns.
Proof.
  revert o. induction ns as [| n ns IH]; intros o Hs Hin Hc; cbn [foldl].
  - now rewrite app_nil_r.
  - cbn [List.filter] in Hc.
    destruct (add_node_shape o n) as (Hn & _ & Hcount).
    destruct (add_node_settled o n Hs Hin) as [Hs' Hin'].
    { intros Hp. rewrite Hp in Hc. cbn in Hc. lia. }
    destruct (IH (add_node o n) Hs' Hin') as (H1 & H2 & H3).
    { rewrite Hcount. destruct (is_primary n); cbn in Hc |- *; lia. }
    split; [exact H1 |]. split; [exact H2 |].
    now rewrite H3, Hn, <- app_assoc.
Qed.

Lemma foldl_add_node_keeps (ns : list DatabaseNode) (o : Orchestrator) :
  failover_in_progress (foldl add_node o ns) = failover_in_progress o /\
  metrics (foldl add_node o ns) = metrics o.
Proof.
  revert o. induction ns as [| n ns IH]; intros o; cbn [foldl]; [now split |].
  destruct (IH (add_node o n)) as [-> ->].
  unfold add_node. now destruct (is_primary n).
Qed.

(** X7. A cluster built by [add_node] from nodes of which at most one is
    primary is settled: its registry is the nodes in insertion order and the
    primary reference is the primary node, if there is one. *)
Theorem cluster_of_settled (ns : list DatabaseNode) :
  (length (List.filter is_primary ns) <= 1)%nat ->
  nodes (cluster_of ns) = ns /\
  settled (cluster_of ns) /\
  primary_in_registry (cluster_of ns) /\
  failover_in_progress (cluster_of ns) = false /\
  metrics (cluster_of ns) = [].
Proof.
  intros Hc. unfold cluster_of.
  destruct (foldl_add_node_settled ns new_orchestrator) as (H1 & H2 & H3).
  - intros r n Hr. discriminate Hr.
  - intros p Hp. discriminate Hp.
  - exact Hc.
  - split; [exact H3 |]. split; [exact H1 |]. split; [exact H2 |].
    apply (foldl_add_node_keeps ns new_orchestrator).
Qed.

Lemma cluster_of_settled_witness :
  (length (List.filter is_primary
             [primary_down;
              standby "standby-us-east-1" 5436 (3 # 10);
              standby "standby-eu-west-1" 5437 (18 # 10)]) <= 1)%nat /\
  settled cluster3 /\ primary_node cluster3 = Some 0%nat.
Proof.
  assert (Hc : (length (List.filter is_primary
             [primary_down;
              standby "standby-us-east-1" 5436 (3 # 10);
              standby "standby-eu-west-1" 5437 (18 # 10)]) <= 1)%nat)
    by (vm_compute; lia).
  split; [exact Hc |].
  destruct (cluster_of_settled _ Hc) as (_ & Hs & _).
  split; [exact Hs | reflexivity].
Defined.

Lemma connect_true_iff (n : DatabaseNode) (out : result unit) :
  fst (connect n out) = true <-> out = Ok tt.
Proof.
  unfold connect. destruct out as [[] |]; cbn; split; congruence.
Qed.

Lemma forallb_connect (l : list DatabaseNode) (co : nat -> result unit) :
  forallb fst (imap (fun r n => connect n (co r)) l) = true <->
  forall r, (r < length l)%nat -> co r = Ok tt.
Proof.
  revert co. induction l as [| a l IH]; intros co.
  - cbn. split; [intros _ r Hr; lia | reflexivity].
  - rewrite imap_cons. cbn [forallb length]. rewrite andb_true_iff, connect_true_iff.
    change (imap ((fun r n => connect n (co r)) ∘ S) l)
      with (imap (fun r n => connect n (co (S r))) l).
    rewrite (IH (fun r => co (S r))). split.
    + intros [H0 HS] [| r] Hr; [exact H0 | apply HS; lia].
    + intros H. split; [apply H; lia | intros r Hr; apply H; lia].
Qed.

(** X8. [initialize] attempts the connection of every node, also after a
    failure: each node is left as its own [connect] leaves it, the result is
    [True] exactly when every attempt succeeded, and then every node has an
    open connection.  Roles, lags and the primary reference are untouched. *)
Theorem initialize_connects_every_node (o : Orchestrator) (co : nat -> result unit) :
  (fst (initialize o co) = true <->
   forall r, (r < length (nodes o))%nat -> co r = Ok tt) /\
  (forall r n, nodes o !! r = Some n ->
     nodes (snd (initialize o co)) !! r = Some (snd (connect n (co r)))) /\
  (fst (initialize o co) = true ->
   forall r n', nodes (snd (initialize o co)) !! r = Some n' ->
     connection n' = Some ConnOpen) /\
  (forall r n, nodes o !! r = Some n -> co r = Raised ->
     exists n', nodes (snd (initialize o co)) !! r = Some n' /\
                is_healthy n' = false /\ connection n' = connection n) /\
  roles (snd (initialize o co)) = roles o /\
  primary_node (snd (initialize o co)) = primary_node o.
Proof.
  assert (Hlook : forall r, nodes (snd (initialize o co)) !! r
                            = (fun n => snd (connect n (co r))) <$> nodes o !! r).
  { intros r. unfold initialize. cbn [snd nodes set_nodes].
    change (map snd ?l) with (snd <$> l).
    rewrite list_lookup_fmap, list_lookup_imap. now destruct (nodes o !! r). }
  assert (Hres : fst (initialize o co) = true <->
                 forall r, (r < length (nodes o))%nat -> co r = Ok tt).
  { unfold initialize. cbn [fst]. apply forallb_connect. }
  split; [exact Hres |]. split; [| split; [| split; [| split]]].
  - intros r n Hr. now rewrite Hlook, Hr.
  - intros Hok r n' Hr. rewrite Hlook in Hr.
    destruct (nodes o !! r) as [n |] eqn:Hn; [| discriminate].
    injection Hr as <-. apply Hres with (r := r) in Hok.
    + now rewrite Hok.
    + eapply lookup_lt_Some; eassumption.
  - intros r n Hr Hfail. exists (snd (connect n (co r))).
    rewrite Hlook, Hr, Hfail. repeat split.
  - unfold roles, initialize. cbn [snd nodes set_nodes].
    apply list_eq. intros r. rewrite !lookup_map.
    change (map snd ?l) with (snd <$> l).
    rewrite list_lookup_fmap, list_lookup_imap.
    destruct (nodes o !! r) as [n |]; [| reflexivity].
    cbn. unfold connect. now destruct (co r).
  - reflexivity.
Qed.

(** The cluster of [main] before any connection, with the attempt on node 1
    failing: [initialize] returns [False], node 1 is marked unhealthy and
    the nodes after it are connected all the same. *)
Example initialize_with_one_failure :
  fst (initialize cluster_unconnected connect_all_but_1) = false /\
  map is_healthy (nodes (snd (initialize cluster_unconnected connect_all_but_1)))
  = [true; false; true] /\
  map connection (nodes (snd (initialize cluster_unconnected connect_all_but_1)))
  = [Some ConnOpen; None; Some ConnOpen].
Proof. repeat split. Qed.

(** * Status report *)

(** The counts of a status report agree with its node entries, which are
    the registered nodes in order; a primary name is reported exactly when
    the primary reference is set. *)
Theorem status_counts (ts : string) (o : Orchestrator) :
  cs_total_nodes (get_cluster_status ts o) = length (cs_nodes (get_cluster_status ts o)) /\
  cs_healthy_nodes (get_cluster_status ts o)
  = length (List.filter ns_is_healthy (cs_nodes (get_cluster_status ts o))) /\
  (cs_healthy_nodes (get_cluster_status ts o)
   <= cs_total_nodes (get_cluster_status ts o))%nat /\
  map ns_name (cs_nodes (get_cluster_status ts o)) = map name (nodes o) /\
  (cs_primary (get_cluster_status ts o) = None <-> primary_node o = None).
Proof.
  cbn [get_cluster_status cs_total_nodes cs_healthy_nodes cs_nodes cs_primary].
  split; [now rewrite length_map |]. split; [| split; [| split]].
  - induction (nodes o) as [| n l IH]; cbn; [reflexivity |].
    destruct (is_healthy n); cbn; now rewrite IH.
  - apply List.filter_length_le.
  - rewrite List.map_map. reflexivity.
  - destruct (primary_node o); cbn; split; congruence.
Qed.

(** X9. In a settled registry the status report names the primary node, and
    that node is the only entry it marks as primary. *)
Theorem status_of_settled_cluster
    (ts : string) (o : Orchestrator) (p : nat) (n : DatabaseNode) :
  settled o ->
  primary_node o = Some p ->
  nodes o !! p = Some n ->
  cs_primary (get_cluster_status ts o) = Some (name n) /\
  forall r s, cs_nodes (get_cluster_status ts o) !! r = Some s ->
    (ns_is_primary s = true <-> r = p) /\ (r = p -> ns_name s = name n).
Proof.
  intros Hs Hp Hn. cbn [get_cluster_status cs_primary cs_nodes].
  split.
  - rewrite Hp. cbn. now rewrite (node_at_lookup o p n Hn).
  - intros r s Hr. change (map node_status (nodes o)) with (node_status <$> nodes o) in Hr.
    rewrite list_lookup_fmap in Hr.
    destruct (nodes o !! r) as [x |] eqn:Hx; [| discriminate].
    injection Hr as <-. cbn [node_status ns_is_primary ns_name]. split.
    + rewrite (Hs r x Hx), Hp. split; congruence.
    + intros ->. congruence.
Qed.

Lemma status_of_settled_cluster_witness :
  settled cluster_up /\
  primary_node cluster_up = Some 0%nat /\
  cs_primary (get_cluster_status "t" cluster_up) = Some "primary-us-west-2"%string /\
  map ns_is_primary (cs_nodes (get_cluster_status "t" cluster_up)) = [true; false; false].
Proof.
  assert (Hs : settled cluster_up).
  { intros r n Hr.
    destruct r as [| [| [| r]]]; vm_compute in Hr; try discriminate Hr;
      injection Hr as <-; vm_compute; split; intros H;
      first [reflexivity | discriminate H]. }
  split; [exact Hs |]. split; [reflexivity |].
  destruct (status_of_settled_cluster "t" cluster_up 0 _ Hs eq_refl eq_refl) as [Hp _].
  split; [exact Hp | reflexivity].
Defined.

(** * One call of [log_metrics] *)

Lemma tick_snapshots_count ts so r ns :
  length (tick_snapshots ts so r ns) = length (List.filter is_healthy ns).
Proof.
  revert r. induction ns as [| n ns IH]; intros r; cbn; [reflexivity |].
  rewrite length_app, IH. now destruct (is_healthy n).
Qed.

(** X10. On a history of at most 100 entries, [log_metrics] leaves the last 100
    of the history followed by one snapshot for each healthy node, in
    registry order; with no healthy node the history is unchanged.  Nothing
    but the history is modified. *)
Theorem log_metrics_appends_healthy_snapshots
    (ts : string) (so : nat -> result (option StatsRow)) (o : Orchestrator) :
  (length (metrics o) <= 100)%nat ->
  metrics (log_metrics ts so o)
  = keep_last 100 (metrics o ++ tick_snapshots ts so 0 (nodes o)) /\
  length (tick_snapshots ts so 0 (nodes o)) = length (List.filter is_healthy (nodes o)) /\
  (List.filter is_healthy (nodes o) = [] -> metrics (log_metrics ts so o) = metrics o) /\
  nodes (log_metrics ts so o) = nodes o /\
  primary_node (log_metrics ts so o) = primary_node o /\
  failover_in_progress (log_metrics ts so o) = failover_in_progress o.
Proof.
  intros Hlen. unfold log_metrics. cbn [metrics set_metrics nodes primary_node
                                        failover_in_progress].
  rewrite log_nodes_keep_last.
  pose proof (tick_snapshots_count ts so 0 (nodes o)) as Hc.
  split; [| split; [exact Hc | split; [| repeat split]]].
  - destruct (tick_snapshots ts so 0 (nodes o)) as [| s ss]; [| reflexivity].
    rewrite app_nil_r. symmetry. now apply keep_last_all.
  - intros Hnone. rewrite Hnone in Hc.
    destruct (tick_snapshots ts so 0 (nodes o)); [reflexivity | discriminate].
Qed.

Lemma log_metrics_appends_healthy_snapshots_witness :
  (length (metrics cluster3) <= 100)%nat /\
  map m_node (metrics (log_metrics "t" (fun _ => Ok (Some sample_row)) cluster3))
  = ["standby-us-east-1"%string; "standby-eu-west-1"%string].
Proof.
  split; [vm_compute; lia |].
  destruct (log_metrics_appends_healthy_snapshots
              "t" (fun _ => Ok (Some sample_row)) cluster3) as [-> _];
    [vm_compute; lia | reflexivity].
Defined.

(** * Further properties of the failover *)

Lemma same_frame_refl (o : Orchestrator) : same_frame o o.
Proof. now repeat split. Qed.

Lemma same_frame_trans (o1 o2 o3 : Orchestrator) :
  same_frame o1 o2 -> same_frame o2 o3 -> same_frame o1 o3.
Proof.
  intros (H1 & H2 & H3 & H4 & H5) (K1 & K2 & K3 & K4 & K5).
  repeat split; congruence.
Qed.

Lemma same_frame_update_node (o : Orchestrator) (r : nat) (f : DatabaseNode -> DatabaseNode) :
  (forall n, nodes o !! r = Some n ->
     name (f n) = name n /\ is_healthy (f n) = is_healthy n /\
     connection (f n) = connection n) ->
  same_frame o (update_node r f o).
Proof.
  intros Hf. unfold same_frame, update_node. cbn [nodes set_nodes monitoring metrics].
  split; [| split; [| split; [| split]]]; try reflexivity;
    symmetry; apply map_alter_same; intros n Hn; now apply Hf.
Qed.

Lemma same_frame_measure (d : FailoverDriver) (c k : nat) (m : Machine) :
  same_frame (cur m) (cur (iteration d c k m)).
Proof.
  cbn [iteration cur]. apply same_frame_update_node. intros n Hn.
  rewrite (node_at_lookup _ c n Hn).
  destruct (get_replication_lag_fields n (lag_probe d k)) as (_ & Hh & Hc & Hnm).
  auto.
Qed.

Lemma same_frame_promote (d : FailoverDriver) (c : nat) (o : Orchestrator) :
  same_frame o (promote_state d c o).
Proof.
  unfold promote_state. apply same_frame_update_node. intros n Hn.
  rewrite (node_at_lookup o c n Hn).
  unfold promote_to_primary. now destruct (through_connection _ _).
Qed.

Lemma same_frame_switch (c : nat) (o : Orchestrator) :
  same_frame o (set_failover_in_progress false (List.last (switch_states c o) o)).
Proof.
  unfold switch_states. destruct (primary_node o) as [p |]; cbn [List.last].
  - apply same_frame_trans with (o2 := set_primary_node (Some c) o);
      [now repeat split |].
    apply same_frame_trans
      with (o2 := update_node p (set_is_primary false) (set_primary_node (Some c) o));
      [| now repeat split].
    apply same_frame_update_node. now intros n _.
  - now repeat split.
Qed.

Lemma wait_loop_out_of_fuel (d : FailoverDriver) (c k : nat) (waited : Z) (m : Machine) :
  keeps_waiting c waited m = true ->
  wait_loop 0 d c k waited m = (None, m).
Proof.
  intros Hc. unfold keeps_waiting in Hc. cbn [wait_loop].
  rewrite bind_run. unfold get. cbn [fst snd]. now rewrite Hc.
Qed.

Lemma wait_loop_frame (d : FailoverDriver) (c : nat) (fuel k : nat) (waited : Z) (m : Machine) :
  same_frame (cur m) (cur (snd (wait_loop fuel d c k waited m))).
Proof.
  revert k waited m. induction fuel as [| fuel IH]; intros k waited m;
    destruct (keeps_waiting c waited m) eqn:Hc.
  - rewrite wait_loop_out_of_fuel by exact Hc. apply same_frame_refl.
  - rewrite wait_loop_exit by exact Hc. apply same_frame_refl.
  - rewrite wait_loop_iterate by exact Hc.
    eapply same_frame_trans; [apply (same_frame_measure d c k m) | apply IH].
  - rewrite wait_loop_exit by exact Hc. apply same_frame_refl.
Qed.

Lemma trigger_failover_frame (d : FailoverDriver) (m : Machine) :
  same_frame (cur m) (cur (snd (trigger_failover d m))).
Proof.
  rewrite trigger_failover_unfold.
  destruct (failover_in_progress (cur m)); [apply same_frame_refl |].
  destruct (standbys (cur m)) as [| r rs]; [now repeat split |].
  cbn zeta.
  set (c := hd r (sorted_standbys (cur m))).
  set (m1 := {| cur := entered (cur m); history := history m ++ [entered (cur m)];
                calls := calls m |}).
  pose proof (wait_loop_frame d c wait_fuel 0 0 m1) as Hw.
  change (cur m1) with (entered (cur m)) in Hw.
  assert (Hw' : same_frame (cur m) (cur (snd (wait_loop wait_fuel d c 0 0 m1))))
    by exact Hw.
  destruct (fst (wait_loop wait_fuel d c 0 0 m1)) as [w |]; [| exact Hw'].
  rewrite after_wait_run. cbn zeta.
  set (o_w := cur (snd (wait_loop wait_fuel d c 0 0 m1))) in *.
  eapply same_frame_trans; [exact Hw' |].
  eapply same_frame_trans; [apply (same_frame_promote d c o_w) |].
  destruct (promote_ok d c o_w); cbn [snd cur].
  - apply same_frame_switch.
  - now repeat split.
Qed.

(** X11. Whatever the driver answers and whatever state it is entered in, a
    failover changes no name, no health flag and no connection of any node,
    nor the monitoring switch or the metrics history. *)
Theorem failover_leaves_frame (d : FailoverDriver) (o : Orchestrator) :
  map name (nodes (cur (snd (run_failover d o)))) = map name (nodes o) /\
  map is_healthy (nodes (cur (snd (run_failover d o)))) = map is_healthy (nodes o) /\
  map connection (nodes (cur (snd (run_failover d o)))) = map connection (nodes o) /\
  length (nodes (cur (snd (run_failover d o)))) = length (nodes o) /\
  monitoring (cur (snd (run_failover d o))) = monitoring o /\
  metrics (cur (snd (run_failover d o))) = metrics o.
Proof.
  destruct (trigger_failover_frame d (start o)) as (H1 & H2 & H3 & H4 & H5).
  change (cur (start o)) with o in *. unfold run_failover.
  repeat split; try congruence.
  apply (f_equal length) in H1. rewrite !length_map in H1. congruence.
Qed.

(** X12. A trigger that finds the guard up is a no-op: the state is the entry
    state, no node is called, nothing is promoted. *)
Theorem reentrant_trigger_is_noop (d : FailoverDriver) (o : Orchestrator) :
  failover_in_progress o = true ->
  fst (run_failover d o) = AlreadyInProgress /\
  cur (snd (run_failover d o)) = o /\
  history (snd (run_failover d o)) = [o] /\
  calls (snd (run_failover d o)) = [].
Proof. intros Hflag. rewrite (run_failover_guarded d o Hflag). now repeat split. Qed.

Lemma reentrant_trigger_is_noop_witness :
  failover_in_progress (entered cluster3) = true /\
  fst (run_failover (driver_fixed 0 (Ok tt)) (entered cluster3)) = AlreadyInProgress /\
  cur (snd (run_failover (driver_fixed 0 (Ok tt)) (entered cluster3))) = entered cluster3.
Proof.
  split; [reflexivity |].
  destruct (reentrant_trigger_is_noop (driver_fixed 0 (Ok tt)) (entered cluster3) eq_refl)
    as (H1 & H2 & _).
  split; [exact H1 | exact H2].
Defined.

Lemma select_candidate_none (o : Orchestrator) :
  (forall r n, nodes o !! r = Some n -> eligible n = false) ->
  select_candidate o = None.
Proof.
  intros Hnone. unfold select_candidate.
  destruct (standbys o) as [| s ss] eqn:Hst; [reflexivity |].
  assert (Hin : In s (standbys o)) by (rewrite Hst; now left).
  apply in_standbys in Hin as (n & Hn & He).
  rewrite (Hnone s n Hn) in He. discriminate.
Qed.

(** X13. With the guard down and no node that is both a standby and healthy,
    the failover aborts: the state on return is the entry state (the old
    primary keeps its role), and no node is called. *)
Theorem no_healthy_standby_aborts (d : FailoverDriver) (o : Orchestrator) :
  failover_in_progress o = false ->
  (forall r n, nodes o !! r = Some n -> eligible n = false) ->
  fst (run_failover d o) = AbortedNoStandby /\
  cur (snd (run_failover d o)) = o /\
  calls (snd (run_failover d o)) = [].
Proof.
  intros Hflag Hnone.
  rewrite (run_failover_no_standby d o Hflag (select_candidate_none o Hnone)).
  now repeat split.
Qed.

Lemma no_healthy_standby_aborts_witness :
  failover_in_progress (cluster_of [primary_down; set_is_healthy false s1_node]) = false /\
  fst (run_failover (driver_fixed 0 (Ok tt))
         (cluster_of [primary_down; set_is_healthy false s1_node])) = AbortedNoStandby /\
  cur (snd (run_failover (driver_fixed 0 (Ok tt))
              (cluster_of [primary_down; set_is_healthy false s1_node])))
  = cluster_of [primary_down; set_is_healthy false s1_node].
Proof.
  split; [reflexivity |].
  destruct (no_healthy_standby_aborts (driver_fixed 0 (Ok tt))
              (cluster_of [primary_down; set_is_healthy false s1_node]) eq_refl)
    as (H1 & H2 & _).
  - intros r n Hr.
    destruct r as [| [| r]]; vm_compute in Hr; try discriminate Hr;
      injection Hr as <-; reflexivity.
  - split; [exact H1 | exact H2].
Defined.

Lemma field_at_of_map {B : Type} (g : DatabaseNode -> B) (o o' : Orchestrator) (r : nat) :
  map g (nodes o) = map g (nodes o') -> g (node_at o r) = g (node_at o' r).
Proof.
  intros Hm. apply (f_equal (fun l => l !! r)) in Hm. rewrite !lookup_map in Hm.
  unfold node_at. rewrite !list_lookup_total_alt.
  destruct (nodes o !! r), (nodes o' !! r); cbn in *; congruence.
Qed.

Lemma role_at (o : Orchestrator) (r : nat) (b : bool) :
  roles o !! r = Some b -> is_primary (node_at o r) = b.
Proof.
  unfold roles. rewrite lookup_map. intros Hr.
  destruct (nodes o !! r) as [n |] eqn:Hn; [| discriminate].
  injection Hr as <-. now rewrite (node_at_lookup o r n Hn).
Qed.

Lemma node_at_update_other (o : Orchestrator) (c r : nat) (f : DatabaseNode -> DatabaseNode) :
  r <> c -> node_at (update_node c f o) r = node_at o r.
Proof.
  intros Hne. unfold node_at, update_node. cbn [nodes set_nodes].
  apply list_lookup_total_alter_ne. congruence.
Qed.

(** The catch-up loop touches no node but the candidate. *)
Lemma wait_loop_other_nodes (d : FailoverDriver) (c r : nat) :
  r <> c ->
  forall (fuel k : nat) (waited : Z) (m : Machine),
    node_at (cur (snd (wait_loop fuel d c k waited m))) r = node_at (cur m) r.
Proof.
  intros Hne. induction fuel as [| fuel IH]; intros k w m;
    destruct (keeps_waiting c w m) eqn:Hc.
  - now rewrite wait_loop_out_of_fuel.
  - now rewrite wait_loop_exit.
  - rewrite wait_loop_iterate by exact Hc. rewrite IH. cbn [iteration cur].
    now apply node_at_update_other.
  - now rewrite wait_loop_exit.
Qed.

(** The state in which the promotion is called, for a failover that found
    candidate [c]: it differs from the entry state in the guard and in the
    stored lag of [c] at most. *)
Lemma failover_at_promotion (d : FailoverDriver) (o : Orchestrator) (c : nat) :
  failover_in_progress o = false ->
  select_candidate o = Some c ->
  exists k o_w hs,
    run_failover d o
    = after_wait d c (2 * Z.of_nat k)
        {| cur := o_w; history := [o; entered o] ++ hs; calls := wait_calls c k |} /\
    (k <= 15)%nat /\
    roles o_w = roles o /\
    primary_node o_w = primary_node o /\
    same_frame o o_w /\
    roles o !! c = Some false /\
    (replication_lag (node_at o_w c) <= 1 \/ k = 15%nat) /\
    (forall r, r <> c -> node_at o_w r = node_at o r).
Proof.
  intros Hflag Hsel.
  destruct (run_failover_candidate d o c Hflag Hsel)
    as (k & o_w & hs & Hrun & Hk & Hsr & _ & Hexit & Hloop).
  exists k, o_w, hs. destruct Hsr as (Hroles & _ & Hprim & _).
  split; [exact Hrun |]. split; [exact Hk |].
  split; [now rewrite <- Hroles |]. split; [now rewrite <- Hprim |].
  split; [| split; [| split]].
  - pose proof (wait_loop_frame d c wait_fuel 0 0
                  {| cur := entered o; history := [o; entered o]; calls := [] |}) as Hf.
    rewrite Hloop in Hf. exact Hf.
  - destruct (select_candidate_eligible o c Hsel) as (nc & Hnc & Hel).
    apply andb_true_iff in Hel as [Hnp _]. apply negb_true_iff in Hnp.
    unfold roles. now rewrite lookup_map, Hnc, <- Hnp.
  - destruct Hexit as [Hexit | ->]; [left | now right].
    now apply Qlt_bool_false.
  - intros r Hne.
    pose proof (wait_loop_other_nodes d c r Hne wait_fuel 0 0
                  {| cur := entered o; history := [o; entered o]; calls := [] |}) as Hn.
    rewrite Hloop in Hn. exact Hn.
Qed.

(** X14. A failover that finds a candidate ends as a completed promotion
    exactly when the promotion command succeeds on a candidate that has a
    connection object. *)
Theorem failover_completes_iff_promotion_succeeds
    (d : FailoverDriver) (o : Orchestrator) (c : nat) :
  failover_in_progress o = false ->
  select_candidate o = Some c ->
  ((exists waited, fst (run_failover d o) = Completed waited) <->
   through_connection (node_at o c) (promote_cmd d) = Ok tt) /\
  ((exists waited, fst (run_failover d o) = PromotionFailed waited) <->
   through_connection (node_at o c) (promote_cmd d) = Raised).
Proof.
  intros Hflag Hsel.
  destruct (failover_at_promotion d o c Hflag Hsel)
    as (k & o_w & hs & Hrun & _ & _ & _ & Hframe & _).
  destruct Hframe as (_ & _ & Hconn & _).
  assert (Hc : connection (node_at o_w c) = connection (node_at o c))
    by (symmetry; now apply field_at_of_map).
  rewrite Hrun, after_wait_run. cbn zeta. cbn [cur].
  unfold promote_ok, promote_to_primary, through_connection. rewrite Hc.
  destruct (connection (node_at o c)); [destruct (promote_cmd d) as [[] |] |];
    cbn [fst]; split; split; intros H;
    first [reflexivity | discriminate H | now destruct H | eauto].
Qed.

Lemma failover_completes_iff_promotion_succeeds_witness :
  failover_in_progress cluster3 = false /\
  select_candidate cluster3 = Some 1%nat /\
  fst (run_failover (driver_fixed (3 # 10) Raised) cluster3) = PromotionFailed 0 /\
  ((exists waited,
       fst (run_failover (driver_fixed (3 # 10) Raised) cluster3) = PromotionFailed waited) <->
   through_connection (node_at cluster3 1) (promote_cmd (driver_fixed (3 # 10) Raised))
   = Raised).
Proof.
  split; [reflexivity |]. split; [reflexivity |]. split; [reflexivity |].
  apply (failover_completes_iff_promotion_succeeds
           (driver_fixed (3 # 10) Raised) cluster3 1 eq_refl eq_refl).
Defined.

(** X15. A failed promotion leaves the registry as it was: every role, every
    health flag, the primary reference and the guard are those of the entry
    state; the stored lag of the candidate is all that may differ. *)
Theorem failed_promotion_leaves_registry
    (d : FailoverDriver) (o : Orchestrator) (waited : Z) :
  failover_in_progress o = false ->
  fst (run_failover d o) = PromotionFailed waited ->
  roles (cur (snd (run_failover d o))) = roles o /\
  primary_node (cur (snd (run_failover d o))) = primary_node o /\
  failover_in_progress (cur (snd (run_failover d o))) = false /\
  count_primaries (cur (snd (run_failover d o))) = count_primaries o /\
  forall r c, select_candidate o = Some c -> r <> c ->
    node_at (cur (snd (run_failover d o))) r = node_at o r.
Proof.
  intros Hflag Hout.
  destruct (select_candidate o) as [c |] eqn:Hsel.
  2:{ rewrite (run_failover_no_standby d o Hflag Hsel) in Hout. discriminate. }
  destruct (failover_at_promotion d o c Hflag Hsel)
    as (k & o_w & hs & Hrun & _ & Hroles & Hprim & _ & Hc & _ & Hrest).
  rewrite Hrun in Hout |- *. rewrite after_wait_run in Hout |- *.
  cbn zeta in *. cbn [cur] in *.
  assert (Hcw : roles o_w !! c = Some false) by now rewrite Hroles.
  destruct (roles_promote_state d o_w c Hcw) as [HrP HpP].
  destruct (promote_ok d c o_w) eqn:Hok; [discriminate |]. cbn [snd cur].
  assert (HR : roles (set_failover_in_progress false (promote_state d c o_w)) = roles o).
  { change (roles (set_failover_in_progress false ?s)) with (roles s).
    rewrite HrP, Hroles. now apply list_insert_id. }
  split; [exact HR |]. split; [exact (eq_trans HpP Hprim) |].
  split; [reflexivity |]. split; [now rewrite !count_primaries_roles, HR |].
  intros r c0 Hc0 Hne. injection Hc0 as <-.
  change (node_at (set_failover_in_progress false ?s) r) with (node_at s r).
  unfold promote_state. rewrite node_at_update_other by exact Hne.
  now apply Hrest.
Qed.

Lemma failed_promotion_leaves_registry_witness :
  failover_in_progress cluster3 = false /\
  fst (run_failover (driver_fixed (3 # 10) Raised) cluster3) = PromotionFailed 0 /\
  roles (cur (snd (run_failover (driver_fixed (3 # 10) Raised) cluster3)))
  = [true; false; false] /\
  primary_node (cur (snd (run_failover (driver_fixed (3 # 10) Raised) cluster3)))
  = Some 0%nat.
Proof.
  split; [reflexivity |]. split; [reflexivity |].
  destruct (failed_promotion_leaves_registry
              (driver_fixed (3 # 10) Raised) cluster3 0 eq_refl eq_refl)
    as (H1 & H2 & _).
  split; [exact H1 | exact H2].
Defined.

Lemma completed_failover_roles (d : FailoverDriver) (o o_w : Orchestrator) (c : nat) :
  roles o_w = roles o ->
  primary_node o_w = primary_node o ->
  roles o !! c = Some false ->
  promote_ok d c o_w = true ->
  roles (set_failover_in_progress false
           (List.last (switch_states c (promote_state d c o_w)) (promote_state d c o_w)))
  = match primary_node o with
    | Some p => <[p := false]> (<[c := true]> (roles o))
    | None => <[c := true]> (roles o)
    end /\
  primary_node (set_failover_in_progress false
                  (List.last (switch_states c (promote_state d c o_w))
                     (promote_state d c o_w))) = Some c.
Proof.
  intros Hroles Hprim Hc Hok.
  assert (Hcw : roles o_w !! c = Some false) by now rewrite Hroles.
  destruct (roles_promote_state d o_w c Hcw) as [HrP HpP].
  rewrite Hok, Hroles in HrP.
  unfold switch_states. rewrite HpP, Hprim.
  destruct (primary_node o) as [p |]; cbn [List.last]; (split; [| reflexivity]).
  - change (roles (set_failover_in_progress false ?s)) with (roles s).
    rewrite (roles_update_node _ p (set_is_primary false) false) by reflexivity.
    change (roles (set_primary_node (Some c) ?s)) with (roles s).
    now rewrite HrP.
  - change (roles (set_failover_in_progress false (set_primary_node (Some c) ?s)))
      with (roles s). exact HrP.
Qed.

(** X16. A completed failover from a settled registry ends with the candidate
    as the primary reference and as the only primary node: the old primary
    is demoted, and it keeps the health flag it had. *)
Theorem completed_failover_switches_primary
    (d : FailoverDriver) (o : Orchestrator) (c : nat) (waited : Z) :
  settled o ->
  failover_in_progress o = false ->
  select_candidate o = Some c ->
  fst (run_failover d o) = Completed waited ->
  primary_node (cur (snd (run_failover d o))) = Some c /\
  is_primary (node_at (cur (snd (run_failover d o))) c) = true /\
  (forall r, r <> c -> is_primary (node_at (cur (snd (run_failover d o))) r) = false) /\
  (forall r, is_healthy (node_at (cur (snd (run_failover d o))) r)
             = is_healthy (node_at o r)) /\
  failover_in_progress (cur (snd (run_failover d o))) = false.
Proof.
  intros Hset Hflag Hsel Hout.
  destruct (trigger_failover_frame d (start o)) as (_ & Hhealth & _).
  change (cur (start o)) with o in Hhealth.
  change (trigger_failover d (start o)) with (run_failover d o) in Hhealth.
  destruct (failover_at_promotion d o c Hflag Hsel)
    as (k & o_w & hs & Hrun & _ & Hroles & Hprim & _ & Hc & _).
  rewrite Hrun in Hout |- *. rewrite Hrun in Hhealth.
  rewrite after_wait_run in Hout, Hhealth |- *.
  cbn zeta in *. cbn [cur] in *.
  destruct (promote_ok d c o_w) eqn:Hok; [| discriminate]. cbn [snd cur] in *.
  destruct (completed_failover_roles d o o_w c Hroles Hprim Hc Hok) as [HrF HpF].
  set (final := set_failover_in_progress false
                  (List.last (switch_states c (promote_state d c o_w))
                     (promote_state d c o_w))) in *.
  assert (Hsettled : forall r b, roles final !! r = Some b -> (b = true <-> Some c = Some r)).
  { rewrite HrF. apply settled_after_promotion; [now apply settled_roles | exact Hc]. }
  assert (Hlen : length (roles final) = length (roles o)).
  { rewrite HrF. destruct (primary_node o); now rewrite ?length_insert. }
  split; [exact HpF |]. split; [| split; [| split; [| reflexivity]]].
  - apply lookup_lt_Some in Hc. rewrite <- Hlen in Hc.
    destruct (lookup_lt_is_Some_2 _ _ Hc) as [b Hb].
    apply role_at. rewrite Hb. f_equal. now apply (Hsettled c b Hb).
  - intros r Hne. unfold node_at. rewrite list_lookup_total_alt.
    destruct (nodes final !! r) as [n |] eqn:Hn; [| reflexivity]. cbn.
    assert (Hr : roles final !! r = Some (is_primary n)).
    { unfold roles. now rewrite lookup_map, Hn. }
    apply Hsettled in Hr. destruct (is_primary n); [| reflexivity].
    destruct Hr as [Hr _]. specialize (Hr eq_refl). congruence.
  - intros r. symmetry. now apply field_at_of_map.
Qed.

Lemma completed_failover_switches_primary_witness :
  settled cluster3 /\
  failover_in_progress cluster3 = false /\
  select_candidate cluster3 = Some 1%nat /\
  fst (run_failover (driver_fixed (3 # 10) (Ok tt)) cluster3) = Completed 0 /\
  primary_node (cur (snd (run_failover (driver_fixed (3 # 10) (Ok tt)) cluster3)))
  = Some 1%nat /\
  is_primary (node_at (cur (snd (run_failover (driver_fixed (3 # 10) (Ok tt)) cluster3))) 0)
  = false.
Proof.
  assert (Hset : settled cluster3).
  { intros r n Hr.
    destruct r as [| [| [| r]]]; vm_compute in Hr; try discriminate Hr;
      injection Hr as <-; vm_compute; split; intros H;
      first [reflexivity | discriminate H]. }
  split; [exact Hset |]. split; [reflexivity |]. split; [reflexivity |].
  split; [reflexivity |].
  destruct (completed_failover_switches_primary
              (driver_fixed (3 # 10) (Ok tt)) cluster3 1 0 Hset eq_refl eq_refl eq_refl)
    as (H1 & _ & H3 & _).
  split; [exact H1 | apply H3; discriminate].
Defined.

(** X17. The promotion is called on a candidate whose stored lag is at most
    1.0 s, unless the loop went through all of its 15 iterations; that lag
    is the one the candidate has when the failover returns. *)
Theorem promoted_caught_up_or_timed_out
    (d : FailoverDriver) (o : Orchestrator) (c : nat) :
  failover_in_progress o = false ->
  select_candidate o = Some c ->
  exists iterations,
    (iterations <= 15)%nat /\
    (fst (run_failover d o) = Completed (2 * Z.of_nat iterations) \/
     fst (run_failover d o) = PromotionFailed (2 * Z.of_nat iterations)) /\
    (replication_lag (node_at (cur (snd (run_failover d o))) c) <= 1 \/
     iterations = 15%nat).
Proof.
  intros Hflag Hsel.
  destruct (failover_at_promotion d o c Hflag Hsel)
    as (k & o_w & hs & Hrun & Hk & _ & _ & _ & _ & Hexit & _).
  exists k. split; [exact Hk |].
  rewrite Hrun, after_wait_run. cbn zeta. cbn [cur].
  destruct (promote_ok d c o_w); cbn [fst snd cur].
  - split; [now left |]. now rewrite lag_after_switch, lag_promote_state.
  - split; [now right |].
    change (node_at (set_failover_in_progress false ?s) c) with (node_at s c).
    now rewrite lag_promote_state.
Qed.

Lemma promoted_caught_up_or_timed_out_witness :
  failover_in_progress cluster_lagging = false /\
  select_candidate cluster_lagging = Some 1%nat /\
  exists iterations,
    (iterations <= 15)%nat /\
    (fst (run_failover (driver_fixed (1 # 2) (Ok tt)) cluster_lagging)
     = Completed (2 * Z.of_nat iterations) \/
     fst (run_failover (driver_fixed (1 # 2) (Ok tt)) cluster_lagging)
     = PromotionFailed (2 * Z.of_nat iterations)) /\
    (replication_lag
       (node_at (cur (snd (run_failover (driver_fixed (1 # 2) (Ok tt)) cluster_lagging))) 1)
     <= 1 \/ iterations = 15%nat).
Proof.
  split; [reflexivity |]. split; [reflexivity |].
  exact (promoted_caught_up_or_timed_out (driver_fixed (1 # 2) (Ok tt)) cluster_lagging 1
           eq_refl eq_refl).
Defined.

(** X18. A candidate whose stored lag is at most 1.0 s at selection is promoted
    at once: no sleep, no re-measurement, zero seconds waited. *)
Theorem caught_up_candidate_promoted_at_once
    (d : FailoverDriver) (o : Orchestrator) (c : nat) :
  failover_in_progress o = false ->
  select_candidate o = Some c ->
  replication_lag (node_at o c) <= 1 ->
  calls (snd (run_failover d o)) = [CallPromoteToPrimary c] /\
  (fst (run_failover d o) = Completed 0 \/ fst (run_failover d o) = PromotionFailed 0).
Proof.
  intros Hflag Hsel Hlag.
  destruct (run_failover_candidate d o c Hflag Hsel)
    as (k & o_w & hs & Hrun & _ & _ & _ & _ & Hloop).
  rewrite wait_loop_exit in Hloop.
  2:{ unfold keeps_waiting. cbn [cur].
      apply andb_false_iff. left. now apply Qlt_bool_false. }
  injection Hloop as Hk _ _ Hcalls.
  rewrite Hrun, after_wait_run. cbn zeta. cbn [cur calls].
  rewrite <- Hcalls, <- Hk.
  destruct (promote_ok d c o_w); cbn [fst snd calls]; auto.
Qed.

Lemma caught_up_candidate_promoted_at_once_witness :
  failover_in_progress cluster3 = false /\
  select_candidate cluster3 = Some 1%nat /\
  replication_lag (node_at cluster3 1) <= 1 /\
  calls (snd (run_failover (driver_fixed 5 (Ok tt)) cluster3)) = [CallPromoteToPrimary 1].
Proof.
  assert (Hlag : replication_lag (node_at cluster3 1) <= 1) by (vm_compute; discriminate).
  split; [reflexivity |]. split; [reflexivity |]. split; [exact Hlag |].
  apply (caught_up_candidate_promoted_at_once (driver_fixed 5 (Ok tt)) cluster3 1
           eq_refl eq_refl Hlag).
Defined.

(** * Further properties of a monitoring tick *)

Lemma map_imap_same {B : Type} (g : DatabaseNode -> B)
    (f : nat -> DatabaseNode -> DatabaseNode) (l : list DatabaseNode) :
  (forall i x, g (f i x) = g x) -> map g (imap f l) = map g l.
Proof.
  revert f. induction l as [| a l IH]; intros f Hf; [reflexivity |].
  rewrite imap_cons. cbn [map]. rewrite Hf. f_equal.
  apply IH. intros i x. apply Hf.
Qed.

Lemma check_node_fields (d : TickDriver) (r : nat) (n : DatabaseNode) :
  name (check_node d r n) = name n /\
  is_primary (check_node d r n) = is_primary n /\
  is_healthy (check_node d r n)
  = is_healthy (snd (health_check n (tick_connect d r) (tick_probe d r))).
Proof.
  unfold check_node.
  set (n1 := snd (health_check n (tick_connect d r) (tick_probe d r))).
  assert (H1 : name n1 = name n /\ is_primary n1 = is_primary n).
  { unfold n1, health_check, connect.
    destruct (not_connected n);
      [destruct (tick_connect d r) | destruct (tick_probe d r)]; now split. }
  destruct H1 as [Hn Hp].
  destruct (get_replication_lag_fields n1 (tick_lag d r)) as (Hp' & Hh' & _ & Hn').
  cbn zeta in Hp', Hh', Hn'.
  destruct (is_primary n1) eqn:Hp1.
  - split; [exact Hn |]. split; [congruence | reflexivity].
  - split; [congruence |]. split; [congruence | exact Hh'].
Qed.

Lemma monitor_tick_unfold (d : TickDriver) (m : Machine) :
  monitor_tick d m
  = let o1 := checked d (cur m) in
    let m1 := {| cur := o1; history := history m ++ [o1]; calls := calls m |} in
    let m2 := match primary_node o1 with
              | Some p =>
                  if is_healthy (node_at o1 p) then m1
                  else snd (trigger_failover (tick_failover d) m1)
              | None => m1
              end in
    let o3 := log_metrics (tick_now d) (tick_stats d) (cur m2) in
    (tt, {| cur := o3; history := history m2 ++ [o3]; calls := calls m2 |}).
Proof.
  unfold monitor_tick, bind, modify, get, ret. cbn [fst snd cur history calls].
  fold (checked d (cur m)).
  destruct (primary_node (checked d (cur m))) as [p |]; [| reflexivity].
  destruct (is_healthy (node_at (checked d (cur m)) p)); [reflexivity |].
  destruct (trigger_failover (tick_failover d) _) as [x m']. reflexivity.
Qed.

Lemma checked_frame (d : TickDriver) (o : Orchestrator) :
  map name (nodes (checked d o)) = map name (nodes o) /\
  roles (checked d o) = roles o /\
  primary_node (checked d o) = primary_node o /\
  metrics (checked d o) = metrics o /\
  failover_in_progress (checked d o) = failover_in_progress o /\
  forall r n, nodes o !! r = Some n ->
    nodes (checked d o) !! r = Some (check_node d r n).
Proof.
  unfold checked, roles. cbn [nodes set_nodes primary_node metrics failover_in_progress].
  split; [apply map_imap_same; intros; apply check_node_fields |].
  split; [apply map_imap_same; intros; apply check_node_fields |].
  repeat split. intros r n Hr. now rewrite list_lookup_imap, Hr.
Qed.

(** X19. A tick leaves at most 100 entries in a history that had at most 100,
    whether a failover runs in it or not, and it keeps the registered nodes
    and their names. *)
Theorem tick_keeps_history_bounded (d : TickDriver) (m : Machine) :
  (length (metrics (cur m)) <= 100)%nat ->
  (length (metrics (cur (snd (monitor_tick d m)))) <= 100)%nat /\
  map name (nodes (cur (snd (monitor_tick d m)))) = map name (nodes (cur m)).
Proof.
  intros Hlen. rewrite monitor_tick_unfold. cbn zeta. cbn [snd cur].
  destruct (checked_frame d (cur m)) as (Hnames & _ & _ & Hmet & _).
  set (m1 := {| cur := checked d (cur m);
                history := history m ++ [checked d (cur m)]; calls := calls m |}).
  set (m2 := match primary_node (checked d (cur m)) with
             | Some p => if is_healthy (node_at (checked d (cur m)) p) then m1
                         else snd (trigger_failover (tick_failover d) m1)
             | None => m1
             end).
  assert (Hm2 : metrics (cur m2) = metrics (cur m) /\
                map name (nodes (cur m2)) = map name (nodes (cur m))).
  { assert (Hfo : metrics (cur (snd (trigger_failover (tick_failover d) m1)))
                  = metrics (cur m) /\
                  map name (nodes (cur (snd (trigger_failover (tick_failover d) m1))))
                  = map name (nodes (cur m))).
    { destruct (trigger_failover_frame (tick_failover d) m1) as (H1 & _ & _ & _ & H5).
      cbn [m1 cur] in H1, H5. split; congruence. }
    unfold m2. destruct (primary_node (checked d (cur m))) as [p |];
      [destruct (is_healthy (node_at (checked d (cur m)) p)) |];
      try exact Hfo; now split. }
  destruct Hm2 as [Hmet2 Hnames2]. split.
  - pose proof (length_log_metrics (tick_now d) (tick_stats d) (cur m2)) as Hb.
    rewrite Hmet2 in Hb. unfold max_metrics in Hb. lia.
  - exact Hnames2.
Qed.

Lemma tick_keeps_history_bounded_witness :
  (length (metrics (cur (start cluster3))) <= 100)%nat /\
  (length (metrics (cur (snd (monitor_tick tick_primary_lost (start cluster3)))))
   <= 100)%nat.
Proof.
  assert (H : (length (metrics (cur (start cluster3))) <= 100)%nat) by (vm_compute; lia).
  split; [exact H |].
  apply (tick_keeps_history_bounded tick_primary_lost (start cluster3) H).
Defined.

(** X20. A tick whose health check leaves the primary healthy runs no failover:
    no call is made on any node for a promotion, and the roles, the primary
    reference and the guard are those of the start of the tick. *)
Theorem tick_with_healthy_primary_has_no_failover
    (d : TickDriver) (m : Machine) (p : nat) (n : DatabaseNode) :
  primary_node (cur m) = Some p ->
  nodes (cur m) !! p = Some n ->
  is_healthy (snd (health_check n (tick_connect d p) (tick_probe d p))) = true ->
  calls (snd (monitor_tick d m)) = calls m /\
  roles (cur (snd (monitor_tick d m))) = roles (cur m) /\
  primary_node (cur (snd (monitor_tick d m))) = primary_node (cur m) /\
  failover_in_progress (cur (snd (monitor_tick d m))) = failover_in_progress (cur m).
Proof.
  intros Hp Hn Hh. rewrite monitor_tick_unfold. cbn zeta. cbn [snd cur calls].
  destruct (checked_frame d (cur m)) as (_ & Hroles & Hprim & _ & Hflag & Hlook).
  rewrite Hprim, Hp.
  rewrite (node_at_lookup _ p _ (Hlook p n Hn)).
  destruct (check_node_fields d p n) as (_ & _ & Hch). rewrite Hch, Hh.
  cbn [cur calls]. repeat split; assumption.
Qed.

Lemma tick_with_healthy_primary_has_no_failover_witness :
  primary_node (cur (start cluster_up)) = Some 0%nat /\
  calls (snd (monitor_tick tick_all_up (start cluster_up))) = [] /\
  roles (cur (snd (monitor_tick tick_all_up (start cluster_up)))) = [true; false; false].
Proof.
  split; [reflexivity |].
  destruct (tick_with_healthy_primary_has_no_failover
              tick_all_up (start cluster_up) 0 _ eq_refl eq_refl eq_refl)
    as (H1 & H2 & _).
  split; [exact H1 | exact H2].
Defined.

(** X21. The health flag a node has after a tick is the one its health check
    of that tick set: neither the lag measurement, nor a failover, nor the
    metrics log changes it. *)
Theorem tick_health_is_health_check
    (d : TickDriver) (m : Machine) (r : nat) (n : DatabaseNode) :
  nodes (cur m) !! r = Some n ->
  is_healthy (node_at (cur (snd (monitor_tick d m))) r)
  = is_healthy (snd (health_check n (tick_connect d r) (tick_probe d r))).
Proof.
  intros Hn. rewrite monitor_tick_unfold. cbn zeta. cbn [snd cur].
  destruct (checked_frame d (cur m)) as (_ & _ & _ & _ & _ & Hlook).
  destruct (check_node_fields d r n) as (_ & _ & Hch).
  set (m1 := {| cur := checked d (cur m);
                history := history m ++ [checked d (cur m)]; calls := calls m |}).
  assert (H1 : is_healthy (node_at (cur m1) r)
               = is_healthy (snd (health_check n (tick_connect d r) (tick_probe d r)))).
  { cbn [m1 cur]. now rewrite (node_at_lookup _ r _ (Hlook r n Hn)). }
  assert (Hfo : is_healthy (node_at (cur (snd (trigger_failover (tick_failover d) m1))) r)
                = is_healthy (node_at (cur m1) r)).
  { destruct (trigger_failover_frame (tick_failover d) m1) as (_ & H2 & _).
    symmetry. now apply field_at_of_map. }
  change (node_at (log_metrics ?ts ?so ?o) r) with (node_at o r).
  destruct (primary_node (checked d (cur m))) as [p |];
    [destruct (is_healthy (node_at (checked d (cur m)) p)) |];
    try exact H1. now rewrite Hfo.
Qed.

Lemma tick_health_is_health_check_witness :
  nodes (cur (start cluster3)) !! 0%nat = Some primary_down /\
  is_healthy (node_at (cur (snd (monitor_tick tick_primary_lost (start cluster3)))) 0)
  = false.
Proof.
  split; [reflexivity |].
  rewrite (tick_health_is_health_check tick_primary_lost (start cluster3) 0 primary_down
             eq_refl).
  reflexivity.
Defined.
